(** * PulsarTrack performance oracle: multi-attester consensus averaging

    A shallow embedding of the performance-oracle contract as documented in
    [ORACLE_CONSENSUS_FIX.md]: the attester index written by
    [submit_attestation] and the averaging of [_try_build_consensus].

    - Contract storage is a record of finite maps, one per [DataKey] variant.
    - Contract code runs in a state-and-panic monad [M]; a panic carries no
      storage, and the host drops the writes of a call that panics
      ([invoke]).
    - [u32] and [u64] values are integers in [Z]; casts are written out
      ([as_u32], [as_u64]) and additions abort when they leave their width
      ([add_u32], [add_u64]).
    - [_try_build_consensus] and the index write of [submit_attestation] are
      translated from the source.  The rest of [submit_attestation], the
      readers, the final store of the builder and the change of
      [min_attesters] are not in the source and follow the specification;
      each such definition says so. *)

From Stdlib Require Import ZArith Lia.
From stdpp Require Import base option list gmap strings.

Open Scope Z_scope.

Set Warnings "-clear-no-such-hyp".

(** ** Machine integers *)

Definition u32_MAX : Z := 2 ^ 32 - 1.
Definition u64_MAX : Z := 2 ^ 64 - 1.

Definition in_u32 (z : Z) : bool := (0 <=? z) && (z <=? u32_MAX).
Definition in_u64 (z : Z) : bool := (0 <=? z) && (z <=? u64_MAX).

(** [x as u32]: the cast keeps the low 32 bits. *)
Definition as_u32 (z : Z) : Z := z mod 2 ^ 32.

(** [x as u64] from a [u32]: a widening cast, value preserved. *)
Definition as_u64 (z : Z) : Z := z mod 2 ^ 64.

(** ** Data model *)

Abbreviation Address := string.

(** One attester's report on one campaign.  The source reads the four
    measured fields.  Modelled from the spec: the struct declaration is not
    in the source; the campaign, the attester and the time stamp are the
    other fields of section 3. *)
Record PerformanceAttestation : Type := {
  att_campaign_id : Z;
  att_attester : Address;
  impressions_verified : Z;
  clicks_verified : Z;
  fraud_rate : Z;
  quality_score : Z;
  submitted_at : Z
}.

(** The consensus record, with the fields of the struct literal in
    [_try_build_consensus]. *)
Record OracleConsensus : Type := {
  campaign_id : Z;
  total_attesters : Z;
  avg_impressions : Z;
  avg_clicks : Z;
  avg_fraud_rate : Z;
  avg_quality_score : Z;
  consensus_reached : bool;
  last_updated : Z
}.

(** Modelled from the spec: the [measurement] argument of [submit] in
    section 4.1, the four values one call reports. *)
Record Measurement : Type := {
  m_impressions : Z;
  m_clicks : Z;
  m_fraud_rate : Z;
  m_quality_score : Z
}.

(** Contract storage, one finite map per [DataKey] variant.
    [MinAttesters] lives in instance storage, the others in persistent
    storage.  The source names the first four keys; [Consensus] is the key
    of the spec's consensus record store. *)
Record Storage : Type := {
  MinAttesters : option Z;
  AttestationCount : gmap Z Z;
  CampaignAttesterIndex : gmap (Z * Z) Address;
  Attestation : gmap (Z * Address) PerformanceAttestation;
  Consensus : gmap Z OracleConsensus
}.

(** Modelled from the spec: what the host and the collaborators of
    section 6 supply to one invocation.  The source reads the ledger clock;
    the attester registry and the policy ranges of the two scores are not in
    the source. *)
Record Env : Type := {
  ledger_timestamp : Z;
  is_authorized : Address -> bool;
  fraud_rate_max : Z;
  quality_score_max : Z
}.

(** ** Failures *)

Inductive Error : Type :=
| Unauthorized
| InvalidMeasurement
| Overflow
| DivisionByZero
| ExpectFailed (msg : string).

Inductive Result (A : Type) : Type :=
| Ok (a : A)
| Err (e : Error).
Arguments Ok {A} a.
Arguments Err {A} e.

(** ** The contract monad: storage threading with panics *)

Definition M (A : Type) : Type := Storage -> Result (A * Storage).

Definition ret {A} (a : A) : M A := fun s => Ok (a, s).

Definition bind {A B} (m : M A) (f : A -> M B) : M B :=
  fun s => match m s with
           | Ok (a, s') => f a s'
           | Err e => Err e
           end.

Definition panic {A} (e : Error) : M A := fun _ => Err e.

Definition gets {A} (f : Storage -> A) : M A := fun s => Ok (f s, s).

Definition modify (f : Storage -> Storage) : M unit := fun s => Ok (tt, f s).

Declare Scope contract_scope.
Delimit Scope contract_scope with contract.
Notation "'let!' x ':=' c1 'in' c2" := (bind c1 (fun x => c2))
  (at level 10, x name, c1 at level 100, c2 at level 200) : contract_scope.
Notation "'do!' c1 'in' c2" := (bind c1 (fun _ => c2))
  (at level 10, c1 at level 100, c2 at level 200) : contract_scope.

(** [Option::expect]: unwrap or panic with the message. *)
Definition expect {A} (o : option A) (msg : string) : M A :=
  match o with
  | Some a => ret a
  | None => panic (ExpectFailed msg)
  end.

(** Modelled from the spec: the build profile of the contract is not in the
    source, and the spec's [Overflow] failure makes an addition that leaves
    the accumulator width abort the computation instead of wrapping (Rust
    with overflow checks on, as in test builds). *)
Definition add_u64 (a b : Z) : M Z :=
  if a + b <=? u64_MAX then ret (a + b) else panic Overflow.

(** Modelled from the spec: the same for the [u32] attester count. *)
Definition add_u32 (a b : Z) : M Z :=
  if a + b <=? u32_MAX then ret (a + b) else panic Overflow.

(** Unsigned division: truncation, panic on a zero divisor. *)
Definition div_u64 (a b : Z) : M Z :=
  if b =? 0 then panic DivisionByZero else ret (a ÷ b).

(** ** Storage accessors *)

Definition put_AttestationCount (k v : Z) (s : Storage) : Storage :=
  {| MinAttesters := MinAttesters s;
     AttestationCount := <[k := v]> (AttestationCount s);
     CampaignAttesterIndex := CampaignAttesterIndex s;
     Attestation := Attestation s;
     Consensus := Consensus s |}.

Definition put_CampaignAttesterIndex (k : Z * Z) (v : Address)
    (s : Storage) : Storage :=
  {| MinAttesters := MinAttesters s;
     AttestationCount := AttestationCount s;
     CampaignAttesterIndex := <[k := v]> (CampaignAttesterIndex s);
     Attestation := Attestation s;
     Consensus := Consensus s |}.

Definition put_Attestation (k : Z * Address) (v : PerformanceAttestation)
    (s : Storage) : Storage :=
  {| MinAttesters := MinAttesters s;
     AttestationCount := AttestationCount s;
     CampaignAttesterIndex := CampaignAttesterIndex s;
     Attestation := <[k := v]> (Attestation s);
     Consensus := Consensus s |}.

Definition put_Consensus (k : Z) (v : OracleConsensus) (s : Storage)
  : Storage :=
  {| MinAttesters := MinAttesters s;
     AttestationCount := AttestationCount s;
     CampaignAttesterIndex := CampaignAttesterIndex s;
     Attestation := Attestation s;
     Consensus := <[k := v]> (Consensus s) |}.

Definition set_AttestationCount (k v : Z) : M unit :=
  modify (put_AttestationCount k v).

Definition set_CampaignAttesterIndex (k : Z * Z) (v : Address) : M unit :=
  modify (put_CampaignAttesterIndex k v).

Definition set_Attestation (k : Z * Address) (v : PerformanceAttestation)
  : M unit :=
  modify (put_Attestation k v).

Definition set_Consensus (k : Z) (v : OracleConsensus) : M unit :=
  modify (put_Consensus k v).

(** [extend_ttl] moves the expiry horizon of an entry.  Entry lifetimes are
    not part of [Storage]; every entry is read within its lifetime, so the
    call leaves the modelled maps as they are. *)
Definition extend_ttl : M unit := ret tt.

(** ** The consensus builder *)

Record Sums : Type := {
  sum_impressions : Z;
  sum_clicks : Z;
  sum_fraud_rate : Z;
  sum_quality_score : Z
}.

Definition zero_sums : Sums :=
  {| sum_impressions := 0; sum_clicks := 0;
     sum_fraud_rate := 0; sum_quality_score := 0 |}.

Section Contract.
Local Open Scope contract_scope.

(** One iteration of [for i in 0..total_attesters]. *)
Definition accumulate (campaign : Z) (i : Z) (acc : Sums) : M Sums :=
  let! o := gets (fun s => CampaignAttesterIndex s !! (campaign, i)) in
  let! attester := expect o "attester index not found" in
  let! o' := gets (fun s => Attestation s !! (campaign, attester)) in
  let! attestation := expect o' "attestation not found" in
  let! si := add_u64 (sum_impressions acc) (impressions_verified attestation) in
  let! sc := add_u64 (sum_clicks acc) (clicks_verified attestation) in
  let! sf := add_u64 (sum_fraud_rate acc) (as_u64 (fraud_rate attestation)) in
  let! sq := add_u64 (sum_quality_score acc)
                     (as_u64 (quality_score attestation)) in
  ret {| sum_impressions := si; sum_clicks := sc;
         sum_fraud_rate := sf; sum_quality_score := sq |}.

(** The loop, [k] iterations starting at position [i]. *)
Fixpoint sum_loop (k : nat) (campaign : Z) (i : Z) (acc : Sums) : M Sums :=
  match k with
  | O => ret acc
  | S k' =>
      let! acc' := accumulate campaign i acc in
      sum_loop k' campaign (i + 1) acc'
  end.

(** Modelled from the spec: the source ends [_try_build_consensus] with
    the comment "store consensus" in place of the write; by step 5 of
    section 4.2 the record goes under the campaign's key and, as every write
    of the contract, has its lifetime extended. *)
Definition store_consensus (campaign : Z) (consensus : OracleConsensus)
  : M unit :=
  do! set_Consensus campaign consensus in
  extend_ttl.

(** [_try_build_consensus(env, campaign_id, total_attesters)]: return below
    the floor, else sum the four fields over the indexed attestations,
    divide, and store the record. *)
Definition _try_build_consensus (env : Env) (campaign : Z) (total : Z)
  : M unit :=
  let! min_attesters := gets (fun s => default 3 (MinAttesters s)) in
  if total <? min_attesters then ret tt
  else
    let! sums := sum_loop (Z.to_nat total) campaign 0 zero_sums in
    let! avg_impressions := div_u64 (sum_impressions sums) (as_u64 total) in
    let! avg_clicks := div_u64 (sum_clicks sums) (as_u64 total) in
    let! avg_fraud_rate := div_u64 (sum_fraud_rate sums) (as_u64 total) in
    let! avg_quality_score :=
      div_u64 (sum_quality_score sums) (as_u64 total) in
    store_consensus campaign
      {| campaign_id := campaign;
         total_attesters := total;
         avg_impressions := avg_impressions;
         avg_clicks := avg_clicks;
         avg_fraud_rate := as_u32 avg_fraud_rate;
         avg_quality_score := as_u32 avg_quality_score;
         consensus_reached := true;
         last_updated := ledger_timestamp env |}.

(** ** Submission *)

(** Modelled from the spec: the range check of [submit_attestation] is not
    in the source.  The two counters range over [u64], the two scores over
    [u32] capped by the policy maxima. *)
Definition valid_measurement (env : Env) (m : Measurement) : bool :=
  in_u64 (m_impressions m) && in_u64 (m_clicks m)
  && in_u32 (m_fraud_rate m) && (m_fraud_rate m <=? fraud_rate_max env)
  && in_u32 (m_quality_score m)
  && (m_quality_score m <=? quality_score_max env).

(** The fragment of [submit_attestation] the source shows: read the count,
    store the attester at that position of the index. *)
Definition index_attester (campaign : Z) (attester : Address) : M Z :=
  let! count := gets (fun s => default 0 (AttestationCount s !! campaign)) in
  do! set_CampaignAttesterIndex (campaign, count) attester in
  do! extend_ttl in
  ret count.

(** Modelled from the spec: the source shows of [submit_attestation] only
    [index_attester]; the authorization and range checks, the test for a
    prior attestation of the same attester, the attestation write, the
    count update, the call of the builder and the returned count follow
    section 4.1 of the spec. *)
Definition submit_attestation (env : Env) (attester : Address)
    (campaign : Z) (m : Measurement) : M Z :=
  if negb (is_authorized env attester) then panic Unauthorized
  else if negb (valid_measurement env m) then panic InvalidMeasurement
  else
    let! prior := gets (fun s => Attestation s !! (campaign, attester)) in
    let! count :=
      match prior with
      | None =>
          let! count := index_attester campaign attester in
          let! count' := add_u32 count 1 in
          do! set_AttestationCount campaign count' in
          do! extend_ttl in
          ret count'
      | Some _ =>
          gets (fun s => default 0 (AttestationCount s !! campaign))
      end in
    do! set_Attestation (campaign, attester)
          {| att_campaign_id := campaign;
             att_attester := attester;
             impressions_verified := m_impressions m;
             clicks_verified := m_clicks m;
             fraud_rate := m_fraud_rate m;
             quality_score := m_quality_score m;
             submitted_at := ledger_timestamp env |} in
    do! extend_ttl in
    do! _try_build_consensus env campaign count in
    ret count.
End Contract.

(** ** Read API *)

Inductive ReadError : Type := NotFound | NotReached.

(** Modelled from the spec: the readers are not in the source; sections
    4.1, 4.3 and 6 give their contracts.  [get_consensus] answers
    [NotReached] when no record is stored. *)
Definition get_consensus (s : Storage) (campaign : Z)
  : OracleConsensus + ReadError :=
  match Consensus s !! campaign with
  | Some r => inl r
  | None => inr NotReached
  end.

(** Modelled from the spec: [count(campaign_id)], the stored attester
    count, 0 when none is stored. *)
Definition get_attestation_count (s : Storage) (campaign : Z) : Z :=
  default 0 (AttestationCount s !! campaign).

(** Modelled from the spec: [get(campaign_id, attester)]. *)
Definition get_attestation (s : Storage) (campaign : Z) (attester : Address)
  : PerformanceAttestation + ReadError :=
  match Attestation s !! (campaign, attester) with
  | Some a => inl a
  | None => inr NotFound
  end.

(** ** Invocations and runs *)

Record Call : Type := {
  call_env : Env;
  call_attester : Address;
  call_campaign : Z;
  call_measurement : Measurement
}.

(** Modelled from the spec: one external invocation.  By section 5 the
    host runs it as a transaction: it commits the writes of a call that
    returns and drops those of a call that panics. *)
Definition invoke (s : Storage) (c : Call) : Result Z * Storage :=
  match submit_attestation (call_env c) (call_attester c) (call_campaign c)
          (call_measurement c) s with
  | Ok (n, s') => (Ok n, s')
  | Err e => (Err e, s)
  end.

Definition run (s : Storage) (calls : list Call) : Storage :=
  foldl (fun s c => snd (invoke s c)) s calls.

Definition init (min_attesters : option Z) : Storage :=
  {| MinAttesters := min_attesters;
     AttestationCount := ∅;
     CampaignAttesterIndex := ∅;
     Attestation := ∅;
     Consensus := ∅ |}.

(** The states of the histories of submissions during which the floor
    stays as configured. *)
Definition reachable (s : Storage) : Prop :=
  ∃ min_attesters calls, s = run (init min_attesters) calls.

(** Modelled from the spec: by section 6 [min_attesters] is a mutable value
    of the policy store, owned by an administrator outside the contract;
    the code that changes it is not in the source.  A change replaces the
    stored floor, which the builder reads anew on every call, and nothing
    else. *)
Definition put_MinAttesters (v : Z) (s : Storage) : Storage :=
  {| MinAttesters := Some v;
     AttestationCount := AttestationCount s;
     CampaignAttesterIndex := CampaignAttesterIndex s;
     Attestation := Attestation s;
     Consensus := Consensus s |}.

(** What changes the storage: a submission, or a change of the floor. *)
Inductive Step : Type :=
  | Submit (call : Call)
  | SetMinAttesters (min_attesters : Z).

Definition step (s : Storage) (st : Step) : Storage :=
  match st with
  | Submit call => snd (invoke s call)
  | SetMinAttesters v => put_MinAttesters v s
  end.

Definition steps (s : Storage) (sts : list Step) : Storage :=
  foldl step s sts.

(** The states of all histories: submissions and changes of the floor, in
    any order. *)
Definition administered (s : Storage) : Prop :=
  ∃ min_attesters sts, s = steps (init min_attesters) sts.

(** ** The scenario of the test suite *)

Module Scenario.
Definition env (now : Z) : Env :=
  {| ledger_timestamp := now;
     is_authorized := fun _ => true;
     fraud_rate_max := 10000;
     quality_score_max := 100 |}.

Definition measurement (i c f q : Z) : Measurement :=
  {| m_impressions := i; m_clicks := c;
     m_fraud_rate := f; m_quality_score := q |}.

Definition submit (now : Z) (who : Address) (campaign : Z)
    (m : Measurement) : Call :=
  {| call_env := env now; call_attester := who;
     call_campaign := campaign; call_measurement := m |}.

Definition A (now : Z) : Call :=
  submit now "A" 1 (measurement 1000 100 1000 80).
Definition B (now : Z) : Call :=
  submit now "B" 1 (measurement 2000 200 2000 90).
Definition C (now : Z) : Call :=
  submit now "C" 1 (measurement 9000 900 9000 10).

(** Two reports whose impressions together leave [u64]. *)
Definition huge (now : Z) (who : Address) : Call :=
  submit now who 1 (measurement (2 ^ 63) 1 0 0).

(** A report with the same value in every field. *)
Definition flat (now : Z) (who : Address) (x : Z) : Call :=
  submit now who 1 (measurement x x x x).
End Scenario.

(** * Specification-level vocabulary *)

(** Sum of one field over a list of attestations (or of measurements). *)
Definition total {A} (f : A -> Z) (atts : list A) : Z :=
  foldr (fun a z => f a + z) 0 atts.

#[global] Arguments total : simpl never.

(** Integer-truncated arithmetic mean of one field. *)
Definition mean {A} (f : A -> Z) (atts : list A) : Z :=
  total f atts ÷ Z.of_nat (length atts).

(** The record the builder is meant to write for a list of attestations. *)
Definition consensus_of (campaign now : Z)
    (atts : list PerformanceAttestation) : OracleConsensus :=
  {| campaign_id := campaign;
     total_attesters := Z.of_nat (length atts);
     avg_impressions := mean impressions_verified atts;
     avg_clicks := mean clicks_verified atts;
     avg_fraud_rate := mean fraud_rate atts;
     avg_quality_score := mean quality_score atts;
     consensus_reached := true;
     last_updated := now |}.

(** The accumulators after adding a list of attestations. *)
Definition plus (acc : Sums) (atts : list PerformanceAttestation) : Sums :=
  {| sum_impressions := sum_impressions acc + total impressions_verified atts;
     sum_clicks := sum_clicks acc + total clicks_verified atts;
     sum_fraud_rate := sum_fraud_rate acc + total fraud_rate atts;
     sum_quality_score := sum_quality_score acc + total quality_score atts |}.

Definition sums_fit (x : Sums) : Prop :=
  sum_impressions x <= u64_MAX ∧ sum_clicks x <= u64_MAX
  ∧ sum_fraud_rate x <= u64_MAX ∧ sum_quality_score x <= u64_MAX.

Definition sums_nonneg (x : Sums) : Prop :=
  0 <= sum_impressions x ∧ 0 <= sum_clicks x
  ∧ 0 <= sum_fraud_rate x ∧ 0 <= sum_quality_score x.

#[local] Instance sums_fit_dec x : Decision (sums_fit x).
Proof. unfold sums_fit. apply _. Defined.

(** The two counters fit the accumulator: the condition under which the
    aggregation of a list of attestations does not overflow. *)
Definition counters_fit (atts : list PerformanceAttestation) : Prop :=
  total impressions_verified atts <= u64_MAX
  ∧ total clicks_verified atts <= u64_MAX.

(** A stored attestation carries its own key and values of its types. *)
Definition wf_attestation (campaign : Z) (attester : Address)
    (att : PerformanceAttestation) : Prop :=
  att_campaign_id att = campaign ∧ att_attester att = attester
  ∧ 0 <= impressions_verified att <= u64_MAX
  ∧ 0 <= clicks_verified att <= u64_MAX
  ∧ 0 <= fraud_rate att <= u32_MAX
  ∧ 0 <= quality_score att <= u32_MAX.

(** The attestations of a campaign in the order of a list of attesters. *)
Definition attestations_of (s : Storage) (campaign : Z) (l : list Address)
  : list PerformanceAttestation :=
  omap (fun a => Attestation s !! (campaign, a)) l.

(** Every attestation stored under the campaign, read off the map itself,
    independently of the index. *)
Definition stored_attestations (s : Storage) (campaign : Z)
  : list PerformanceAttestation :=
  snd <$> filter (fun kv => kv.1.1 = campaign) (map_to_list (Attestation s)).

(** The index invariant of a campaign: [l] lists its attesters by position. *)
Record index_inv (s : Storage) (campaign : Z) (l : list Address) : Prop := {
  inv_nodup : NoDup l;
  inv_count : get_attestation_count s campaign = Z.of_nat (length l);
  inv_bound : Z.of_nat (length l) <= u32_MAX;
  inv_index : ∀ i : Z,
    CampaignAttesterIndex s !! (campaign, i)
    = if decide (0 <= i) then l !! Z.to_nat i else None;
  inv_attested : ∀ a, a ∈ l ↔ is_Some (Attestation s !! (campaign, a));
  inv_wf : ∀ a att,
    Attestation s !! (campaign, a) = Some att -> wf_attestation campaign a att
}.

(** The stored consensus of a campaign is the one computed from its
    current attestations, and it exists exactly from quorum on. *)
Definition consensus_inv (s : Storage) (campaign : Z) (l : list Address)
  : Prop :=
  (∀ r, Consensus s !! campaign = Some r ->
     default 3 (MinAttesters s) <= Z.of_nat (length l)
     ∧ 1 <= Z.of_nat (length l)
     ∧ r = consensus_of campaign (last_updated r)
             (attestations_of s campaign l))
  ∧ (Consensus s !! campaign = None ->
     Z.of_nat (length l) < default 3 (MinAttesters s) ∨ l = []).

Definition inv (s : Storage) : Prop :=
  ∀ campaign, ∃ l, index_inv s campaign l ∧ consensus_inv s campaign l.

#[local] Instance counters_fit_dec atts : Decision (counters_fit atts).
Proof. unfold counters_fit. apply _. Defined.

(** What the builder does to a storage whose campaign holds [atts]. *)
Definition build_result (env : Env) (c : Z)
    (atts : list PerformanceAttestation) (s : Storage)
  : Result (unit * Storage) :=
  if decide (Z.of_nat (length atts) < default 3 (MinAttesters s))
  then Ok (tt, s)
  else if decide (counters_fit atts)
  then Ok (tt, put_Consensus c (consensus_of c (ledger_timestamp env) atts) s)
  else Err Overflow.

(** The attestation one call stores. *)
Definition attestation_of (env : Env) (a : Address) (c : Z) (m : Measurement)
  : PerformanceAttestation :=
  {| att_campaign_id := c;
     att_attester := a;
     impressions_verified := m_impressions m;
     clicks_verified := m_clicks m;
     fraud_rate := m_fraud_rate m;
     quality_score := m_quality_score m;
     submitted_at := ledger_timestamp env |}.

(** The attester count a call passes on to the builder. *)
Definition count_after (s : Storage) (a : Address) (c : Z) : Z :=
  match Attestation s !! (c, a) with
  | Some _ => get_attestation_count s c
  | None => get_attestation_count s c + 1
  end.

(** The storage after the writes of a call, before the builder runs. *)
Definition written (env : Env) (a : Address) (c : Z) (m : Measurement)
    (s : Storage) : Storage :=
  match Attestation s !! (c, a) with
  | Some _ => put_Attestation (c, a) (attestation_of env a c m) s
  | None =>
      put_Attestation (c, a) (attestation_of env a c m)
        (put_AttestationCount c (get_attestation_count s c + 1)
           (put_CampaignAttesterIndex (c, get_attestation_count s c) a s))
  end.

(** The attesters of the campaign after a call by [a]. *)
Definition attesters_after (l : list Address) (a : Address) : list Address :=
  if decide (a ∈ l) then l else l ++ [a].

Ltac unfold_monad :=
  cbv beta iota delta [bind gets ret expect panic modify extend_ttl].

(** Some sum of a field leaves the 64-bit accumulator. *)
Definition sum_exceeds (atts : list PerformanceAttestation) : Prop :=
  u64_MAX < total impressions_verified atts
  ∨ u64_MAX < total clicks_verified atts
  ∨ u64_MAX < total fraud_rate atts
  ∨ u64_MAX < total quality_score atts.

#[local] Instance sum_exceeds_dec atts : Decision (sum_exceeds atts).
Proof. unfold sum_exceeds. apply _. Defined.

(** The attesters whose calls on the campaign returned along a run. *)
Fixpoint submitters (s : Storage) (calls : list Call) (campaign : Z)
  : gset Address :=
  match calls with
  | [] => ∅
  | call :: calls' =>
      match invoke s call with
      | (Ok _, _) =>
          if decide (call_campaign call = campaign)
          then {[ call_attester call ]} else ∅
      | (Err _, _) => ∅
      end ∪ submitters (snd (invoke s call)) calls' campaign
  end.

(** The reports [atts] of a field are the one of [y] and those of [others],
    of which there is at least one; the others lie near [X], each within
    [d] of it, and [y] reports an outlier, farther than [d] from [X]. *)
Definition lone_outlier {A} (f : A -> Z) (X d : Z) (y : A)
    (others atts : list A) : Prop :=
  atts ≡ₚ y :: others
  ∧ others ≠ []
  ∧ Forall (fun a => Z.abs (f a - X) <= d) others
  ∧ d < Z.abs (f y - X).

(** How far the outlier [f y] moves the average [avg] of all reports.  The
    average is at most as far from [X] as the outlier is, and strictly
    closer unless every other report is [f y + 1], the one case in which
    the average is the outlier's own value.  It leaves [X] by less than the
    [n]-th part of the outlier's distance and of the others' spread, plus
    the unit the truncation may drop, and it leaves the exact mean of the
    others, [total f others / (n - 1)], by less than the [n]-th part of
    the outlier's distance from that mean, plus that unit. *)
Definition diluted {A} (f : A -> Z) (X d : Z) (y : A) (others : list A)
    (avg : Z) : Prop :=
  let n := Z.of_nat (length others) + 1 in
  let onto_outlier := Forall (fun a => f a = f y + 1) others in
  Z.abs (avg - X) <= Z.abs (f y - X)
  ∧ (¬ onto_outlier -> Z.abs (avg - X) < Z.abs (f y - X))
  ∧ (onto_outlier ↔ avg = f y)
  ∧ n * Z.abs (avg - X) < Z.abs (f y - X) + (n - 1) * d + n
  ∧ Z.abs ((n - 1) * n * avg - n * total f others)
    < Z.abs ((n - 1) * f y - total f others) + (n - 1) * n.

(** Every call of a run returns. *)
Fixpoint all_return (s : Storage) (calls : list Call) : Prop :=
  match calls with
  | [] => True
  | call :: calls' =>
      (∃ n, fst (invoke s call) = Ok n)
      ∧ all_return (snd (invoke s call)) calls'
  end.

(** What a call reports: who, and which values. *)
Definition report (call : Call) : Address * Measurement :=
  (call_attester call, call_measurement call).

Definition attestation_of_call (call : Call) : PerformanceAttestation :=
  attestation_of (call_env call) (call_attester call) (call_campaign call)
    (call_measurement call).

(** A call on the campaign that passes the two checks. *)
Definition admissible (campaign : Z) (call : Call) : Prop :=
  call_campaign call = campaign
  ∧ is_authorized (call_env call) (call_attester call) = true
  ∧ valid_measurement (call_env call) (call_measurement call) = true.

(** The storage satisfies the index invariant for the campaign. *)
Definition indexed (s : Storage) (campaign : Z) : Prop :=
  ∃ l, index_inv s campaign l.

(** What every history keeps, whatever the floor has been: each campaign
    satisfies the index invariant, and each stored record carries the
    reached flag, its campaign, and a number of attesters the count of the
    campaign has not fallen below. *)
Definition records_inv (s : Storage) : Prop :=
  ∀ campaign,
    indexed s campaign
    ∧ ∀ r, Consensus s !! campaign = Some r ->
        consensus_reached r = true ∧ campaign_id r = campaign
        ∧ 1 <= total_attesters r <= get_attestation_count s campaign.

(** The record [r] holds the truncated means, over every attestation stored
    for the campaign, of the four fields, and their number. *)
Definition means_of_all_stored (s : Storage) (campaign : Z)
    (r : OracleConsensus) : Prop :=
  let atts := stored_attestations s campaign in
  let n := Z.of_nat (length atts) in
  1 <= n
  ∧ NoDup (att_attester <$> atts)
  ∧ total_attesters r = n
  ∧ get_attestation_count s campaign = n
  ∧ avg_impressions r = total impressions_verified atts ÷ n
  ∧ avg_clicks r = total clicks_verified atts ÷ n
  ∧ avg_fraud_rate r = total fraud_rate atts ÷ n
  ∧ avg_quality_score r = total quality_score atts ÷ n.

(** In each field where all stored attestations but one report values near
    some [X] and the one reports an outlier, the average of the record is
    diluted. *)
Definition outlier_diluted (s : Storage) (campaign : Z) (r : OracleConsensus)
  : Prop :=
  let atts := stored_attestations s campaign in
  (∀ X d y others, lone_outlier impressions_verified X d y others atts ->
     diluted impressions_verified X d y others (avg_impressions r))
  ∧ (∀ X d y others, lone_outlier clicks_verified X d y others atts ->
     diluted clicks_verified X d y others (avg_clicks r))
  ∧ (∀ X d y others, lone_outlier fraud_rate X d y others atts ->
     diluted fraud_rate X d y others (avg_fraud_rate r))
  ∧ (∀ X d y others, lone_outlier quality_score X d y others atts ->
     diluted quality_score X d y others (avg_quality_score r)).

(** A result that leaves the storage as it is. *)
Definition lift {A} (w : Result A) (s : Storage) : Result (A * Storage) :=
  match w with
  | Ok a => Ok (a, s)
  | Err e => Err e
  end.

(** What a run of the builder does to a storage: nothing, the write of one
    record under the campaign's key, or a panic. *)
Definition apply_outcome (campaign : Z) (w : Result (option OracleConsensus))
    (s : Storage) : Result (unit * Storage) :=
  match w with
  | Ok None => Ok (tt, s)
  | Ok (Some r) => Ok (tt, put_Consensus campaign r s)
  | Err e => Err e
  end.

(** Two storages agree on what the builder reads for a campaign and a
    count: the floor, the index positions below the count, and the
    attestations of the campaign. *)
Definition same_inputs (campaign n : Z) (s1 s2 : Storage) : Prop :=
  MinAttesters s1 = MinAttesters s2
  ∧ (∀ i, 0 <= i < n ->
       CampaignAttesterIndex s1 !! (campaign, i)
       = CampaignAttesterIndex s2 !! (campaign, i))
  ∧ (∀ a, Attestation s1 !! (campaign, a) = Attestation s2 !! (campaign, a)).

(** The index positions [0 .. length l - 1] of the campaign hold the
    attesters [l], in this order and possibly with repetitions, and [atts]
    are their stored attestations. *)
Definition listed (s : Storage) (campaign : Z) (l : list Address)
    (atts : list PerformanceAttestation) : Prop :=
  Forall2 (fun a att =>
    Attestation s !! (campaign, a) = Some att
    ∧ wf_attestation campaign a att) l atts
  ∧ (∀ (j : nat) a, l !! j = Some a ->
       CampaignAttesterIndex s !! (campaign, Z.of_nat j) = Some a).

(** The averages of a record lie between any bounds of the reports. *)
Definition within_reports (r : OracleConsensus)
    (atts : list PerformanceAttestation) : Prop :=
  ∀ lo hi, 0 <= lo ->
    (Forall (fun a => lo <= impressions_verified a <= hi) atts ->
       lo <= avg_impressions r <= hi)
    ∧ (Forall (fun a => lo <= clicks_verified a <= hi) atts ->
       lo <= avg_clicks r <= hi)
    ∧ (Forall (fun a => lo <= fraud_rate a <= hi) atts ->
       lo <= avg_fraud_rate r <= hi)
    ∧ (Forall (fun a => lo <= quality_score a <= hi) atts ->
       lo <= avg_quality_score r <= hi).

(** What the truncation of an average loses: less than one unit. *)
Definition truncation_of (n avg sum : Z) : Prop :=
  n * avg <= sum < n * avg + n.

(** * Arithmetic of sums and means *)

Lemma total_nil {A} (f : A -> Z) : total f [] = 0.
Proof. reflexivity. Qed.

Lemma total_cons {A} (f : A -> Z) a atts :
  total f (a :: atts) = f a + total f atts.
Proof. reflexivity. Qed.

Lemma total_app {A} (f : A -> Z) atts1 atts2 :
  total f (atts1 ++ atts2) = total f atts1 + total f atts2.
Proof.
  induction atts1 as [|a atts1 IH]; [reflexivity|].
  change ((a :: atts1) ++ atts2) with (a :: (atts1 ++ atts2)).
  rewrite !total_cons, IH. lia.
Qed.

Lemma total_perm {A} (f : A -> Z) atts1 atts2 :
  atts1 ≡ₚ atts2 -> total f atts1 = total f atts2.
Proof.
  induction 1; rewrite ?total_cons in *; lia.
Qed.

Lemma total_bounds {A} (f : A -> Z) lo hi atts :
  Forall (fun a => lo <= f a <= hi) atts ->
  lo * Z.of_nat (length atts) <= total f atts <= hi * Z.of_nat (length atts).
Proof.
  induction 1 as [|a atts Ha _ IH]; simpl length; rewrite ?total_cons.
  - rewrite total_nil. lia.
  - lia.
Qed.

Lemma mean_bounds {A} (f : A -> Z) lo hi atts :
  atts ≠ [] -> 0 <= lo ->
  Forall (fun a => lo <= f a <= hi) atts ->
  lo <= mean f atts <= hi.
Proof.
  intros Hne Hlo Hall. unfold mean.
  pose proof (total_bounds f lo hi atts Hall) as [H1 H2].
  assert (0 < Z.of_nat (length atts)) as Hn by (destruct atts; [done|simpl; lia]).
  rewrite Z.quot_div_nonneg by nia.
  split.
  - apply Z.div_le_lower_bound; lia.
  - apply Z.div_le_upper_bound; lia.
Qed.

(** * The averaging loop *)

Lemma plus_nil acc : plus acc [] = acc.
Proof.
  destruct acc; unfold plus; simpl; rewrite !total_nil; f_equal; lia.
Qed.

Lemma plus_cons acc att atts :
  plus acc (att :: atts)
  = plus {| sum_impressions := sum_impressions acc + impressions_verified att;
            sum_clicks := sum_clicks acc + clicks_verified att;
            sum_fraud_rate := sum_fraud_rate acc + fraud_rate att;
            sum_quality_score := sum_quality_score acc + quality_score att |}
         atts.
Proof. unfold plus; simpl; rewrite !total_cons; f_equal; lia. Qed.

Lemma total_nonneg {A} (f : A -> Z) atts :
  Forall (fun a => 0 <= f a) atts -> 0 <= total f atts.
Proof.
  induction 1; rewrite ?total_nil, ?total_cons; lia.
Qed.

Lemma wf_attestations_nonneg c atts (l : list Address) :
  Forall2 (fun a att => wf_attestation c a att) l atts ->
  0 <= total impressions_verified atts ∧ 0 <= total clicks_verified atts
  ∧ 0 <= total fraud_rate atts ∧ 0 <= total quality_score atts.
Proof.
  intros H. repeat split; apply total_nonneg;
    (induction H as [|a att l atts Hw _ IH]; constructor;
     [unfold wf_attestation in Hw; lia | assumption]).
Qed.

Lemma as_u64_small z : 0 <= z <= u32_MAX -> as_u64 z = z.
Proof. intros H. unfold as_u64, u32_MAX in *. apply Z.mod_small. lia. Qed.

(** The loop reads the attestations of positions [i], [i+1], ... and
    either returns the accumulated sums, storage untouched, or overflows. *)
Lemma sum_loop_spec s c atts : ∀ (l : list Address) i acc,
  Forall2 (fun a att =>
    Attestation s !! (c, a) = Some att ∧ wf_attestation c a att) l atts ->
  (∀ (j : nat) a, l !! j = Some a ->
     CampaignAttesterIndex s !! (c, i + Z.of_nat j) = Some a) ->
  sums_nonneg acc -> sums_fit acc ->
  sum_loop (length l) c i acc s
  = if decide (sums_fit (plus acc atts)) then Ok (plus acc atts, s)
    else Err Overflow.
Proof.
  intros l i acc H. revert i acc.
  induction H as [|a att l atts [Hatt Hwf] Hrest IH]; intros i acc Hidx Hacc Hfit.
  - simpl. rewrite plus_nil. rewrite decide_True by done. reflexivity.
  - assert (Hrest' : Forall2 (fun a att => wf_attestation c a att) l atts).
    { eapply Forall2_impl; [exact Hrest|]. by intros ?? [_ ?]. }
    pose proof (wf_attestations_nonneg _ _ _ Hrest') as (Hn1 & Hn2 & Hn3 & Hn4).
    destruct Hwf as (_ & _ & Hi & Hc & Hf & Hq).
    destruct Hacc as (Ha1 & Ha2 & Ha3 & Ha4).
    cbn [length sum_loop]. unfold accumulate at 1. unfold_monad.
    pose proof (Hidx 0%nat a eq_refl) as H0. rewrite Z.add_0_r in H0.
    rewrite H0; unfold_monad. rewrite Hatt; unfold_monad.
    rewrite !as_u64_small by done.
    rewrite plus_cons. unfold add_u64. unfold_monad.
    assert (Hplus : ∀ x, sums_fit (plus x atts) ->
      sum_impressions x <= u64_MAX ∧ sum_clicks x <= u64_MAX
      ∧ sum_fraud_rate x <= u64_MAX ∧ sum_quality_score x <= u64_MAX).
    { intros x (?&?&?&?). unfold plus in *; simpl in *. lia. }
    repeat (match goal with
            | |- context [if ?x <=? ?y then _ else _] =>
                destruct (Z.leb_spec x y)
            end; unfold_monad;
      [|rewrite decide_False; [reflexivity|];
        intros Hf'; apply Hplus in Hf'; simpl in Hf'; lia]).
    apply IH.
    + intros j a' Hj. replace (i + 1 + Z.of_nat j) with (i + Z.of_nat (S j)) by lia.
      by apply Hidx.
    + unfold sums_nonneg; simpl; lia.
    + unfold sums_fit; simpl; lia.
Qed.

(** * The builder *)

Lemma omap_Forall2 {A B} (f : A -> option B) (l : list A) :
  (∀ a, a ∈ l -> is_Some (f a)) ->
  Forall2 (fun a b => f a = Some b) l (omap f l).
Proof.
  induction l as [|a l IH]; intros H; [constructor|].
  destruct (H a) as [b Hb]; [left|]. cbn. rewrite Hb. cbn.
  constructor; [done|]. apply IH. intros a' Ha'. apply H. by right.
Qed.

Lemma index_inv_attestations s c l :
  index_inv s c l ->
  Forall2 (fun a att =>
    Attestation s !! (c, a) = Some att ∧ wf_attestation c a att)
    l (attestations_of s c l).
Proof.
  intros Hinv. unfold attestations_of.
  eapply Forall2_impl.
  - apply (omap_Forall2 (fun a => Attestation s !! (c, a))).
    intros a Ha. by apply (inv_attested _ _ _ Hinv).
  - intros a att Ha. split; [done|]. by apply (inv_wf _ _ _ Hinv).
Qed.

Lemma index_inv_length s c l :
  index_inv s c l -> length (attestations_of s c l) = length l.
Proof.
  intros H. symmetry. eapply Forall2_length, index_inv_attestations, H.
Qed.

Lemma Forall2_Forall_r {A B} (P : A -> B -> Prop) (Q : B -> Prop) l k :
  Forall2 P l k -> (∀ a b, P a b -> Q b) -> Forall Q k.
Proof. induction 1; intros HPQ; constructor; eauto. Qed.

(** The two score sums cannot overflow: at most [u32_MAX] attesters, each
    score at most [u32_MAX]. *)
Lemma sums_fit_counters s c l :
  index_inv s c l ->
  sums_fit (plus zero_sums (attestations_of s c l))
  ↔ counters_fit (attestations_of s c l).
Proof.
  intros Hinv.
  pose proof (index_inv_attestations _ _ _ Hinv) as Hall.
  pose proof (index_inv_length _ _ _ Hinv) as Hlen.
  pose proof (inv_bound _ _ _ Hinv) as Hb.
  assert (Hf : total fraud_rate (attestations_of s c l)
               <= u32_MAX * Z.of_nat (length (attestations_of s c l))).
  { apply (total_bounds fraud_rate 0 u32_MAX).
    eapply Forall2_Forall_r; [exact Hall|].
    intros a b [_ Hw]. unfold wf_attestation in Hw. lia. }
  assert (Hq : total quality_score (attestations_of s c l)
               <= u32_MAX * Z.of_nat (length (attestations_of s c l))).
  { apply (total_bounds quality_score 0 u32_MAX).
    eapply Forall2_Forall_r; [exact Hall|].
    intros a b [_ Hw]. unfold wf_attestation in Hw. lia. }
  rewrite Hlen in Hf, Hq.
  unfold sums_fit, counters_fit, plus, zero_sums; simpl.
  unfold u32_MAX, u64_MAX in *. split; [lia|]. intros [? ?].
  repeat split; nia.
Qed.

Lemma as_u32_small z : 0 <= z <= u32_MAX -> as_u32 z = z.
Proof. intros H. unfold as_u32, u32_MAX in *. apply Z.mod_small. lia. Qed.

Lemma as_u64_count z : 0 <= z <= u32_MAX -> as_u64 z = z.
Proof. apply as_u64_small. Qed.

Lemma try_build_spec env s c l :
  index_inv s c l -> 1 <= Z.of_nat (length l) ->
  _try_build_consensus env c (Z.of_nat (length l)) s
  = build_result env c (attestations_of s c l) s.
Proof.
  intros Hinv Hpos.
  pose proof (index_inv_attestations _ _ _ Hinv) as Hall.
  pose proof (index_inv_length _ _ _ Hinv) as Hlen.
  pose proof (inv_bound _ _ _ Hinv) as Hb.
  unfold _try_build_consensus, build_result. unfold_monad.
  rewrite Hlen.
  destruct (Z.ltb_spec (Z.of_nat (length l)) (default 3 (MinAttesters s)));
    [by rewrite decide_True by done|].
  rewrite decide_False by lia.
  rewrite Nat2Z.id.
  rewrite (sum_loop_spec s c (attestations_of s c l)); first last.
  - unfold sums_fit, zero_sums, u64_MAX; simpl; lia.
  - unfold sums_nonneg, zero_sums; simpl; lia.
  - intros j a Hj. rewrite (inv_index _ _ _ Hinv).
    rewrite decide_True by lia. replace (0 + Z.of_nat j) with (Z.of_nat j) by lia.
    by rewrite Nat2Z.id.
  - exact Hall.
  - destruct (decide (counters_fit (attestations_of s c l))) as [Hfit|Hfit].
    + rewrite decide_True by (by apply (sums_fit_counters s c l)).
      rewrite as_u64_count by lia. unfold div_u64.
      destruct (Z.eqb_spec (Z.of_nat (length l)) 0); [lia|].
      unfold store_consensus, set_Consensus. unfold_monad.
      do 3 f_equal. unfold consensus_of, mean, plus, zero_sums. simpl.
      rewrite Hlen.
      assert (Hne : attestations_of s c l ≠ []).
      { intros E. rewrite E in Hlen. simpl in Hlen. lia. }
      pose proof (mean_bounds fraud_rate 0 u32_MAX _ Hne (Z.le_refl 0)) as Hf.
      pose proof (mean_bounds quality_score 0 u32_MAX _ Hne (Z.le_refl 0)) as Hq.
      unfold mean in Hf, Hq. rewrite Hlen in Hf, Hq.
      rewrite !as_u32_small; [reflexivity| |].
      * apply Hq. eapply Forall2_Forall_r; [exact Hall|].
        intros a b [_ Hw]. unfold wf_attestation in Hw. lia.
      * apply Hf. eapply Forall2_Forall_r; [exact Hall|].
        intros a b [_ Hw]. unfold wf_attestation in Hw. lia.
    + rewrite decide_False; [reflexivity|].
      by rewrite (sums_fit_counters s c l).
Qed.

(** * Submission *)

(** The shown fragment stores the attester at position [count], whatever
    the index already holds, and leaves the count to its caller. *)
Lemma index_attester_spec c a s :
  index_attester c a s
  = Ok (get_attestation_count s c,
        put_CampaignAttesterIndex (c, get_attestation_count s c) a s).
Proof. reflexivity. Qed.

Lemma submit_unfold env a c m s :
  is_authorized env a = true -> valid_measurement env m = true ->
  count_after s a c <= u32_MAX ->
  submit_attestation env a c m s
  = match _try_build_consensus env c (count_after s a c)
            (written env a c m s) with
    | Ok (_, s') => Ok (count_after s a c, s')
    | Err e => Err e
    end.
Proof.
  intros Hauth Hvalid Hn.
  unfold submit_attestation, count_after, written, get_attestation_count in *.
  rewrite Hauth, Hvalid. cbn [negb].
  unfold index_attester, set_CampaignAttesterIndex, set_AttestationCount,
    set_Attestation, add_u32.
  unfold_monad.
  destruct (Attestation s !! (c, a)) as [old|]; cbn [AttestationCount put_CampaignAttesterIndex].
  - unfold attestation_of. by destruct (_try_build_consensus _ _ _ _) as [[[] ?]|].
  - destruct (Z.leb_spec (default 0 (AttestationCount s !! c) + 1) u32_MAX); [|lia].
    unfold attestation_of. by destruct (_try_build_consensus _ _ _ _) as [[[] ?]|].
Qed.

Lemma submit_count_overflow env a c m s :
  is_authorized env a = true -> valid_measurement env m = true ->
  u32_MAX < count_after s a c -> Attestation s !! (c, a) = None ->
  submit_attestation env a c m s = Err Overflow.
Proof.
  intros Hauth Hvalid Hn Hnone.
  unfold submit_attestation, count_after, get_attestation_count in *.
  rewrite Hauth, Hvalid. cbn [negb].
  unfold index_attester, set_CampaignAttesterIndex, set_AttestationCount,
    set_Attestation, add_u32.
  unfold_monad. rewrite Hnone in *. cbn [AttestationCount put_CampaignAttesterIndex].
  destruct (Z.leb_spec (default 0 (AttestationCount s !! c) + 1) u32_MAX); [lia|done].
Qed.

Lemma submit_unauthorized env a c m s :
  is_authorized env a = false ->
  submit_attestation env a c m s = Err Unauthorized.
Proof. intros H. unfold submit_attestation. by rewrite H. Qed.

Lemma submit_invalid env a c m s :
  is_authorized env a = true -> valid_measurement env m = false ->
  submit_attestation env a c m s = Err InvalidMeasurement.
Proof. intros H1 H2. unfold submit_attestation. by rewrite H1, H2. Qed.

(** * Preservation of the index invariant *)

Lemma valid_measurement_wf env a c m :
  valid_measurement env m = true ->
  wf_attestation c a (attestation_of env a c m).
Proof.
  unfold valid_measurement, in_u64, in_u32, wf_attestation, attestation_of.
  intros H. simpl.
  repeat (apply andb_prop in H as [H ?]).
  repeat match goal with
         | H : (_ && _)%bool = true |- _ => apply andb_prop in H as [? ?]
         | H : (_ <=? _) = true |- _ => apply Z.leb_le in H
         end.
  repeat split; try reflexivity; lia.
Qed.

Lemma index_inv_ext s s' c l :
  get_attestation_count s' c = get_attestation_count s c ->
  (∀ i, CampaignAttesterIndex s' !! (c, i) = CampaignAttesterIndex s !! (c, i)) ->
  (∀ a, Attestation s' !! (c, a) = Attestation s !! (c, a)) ->
  index_inv s c l -> index_inv s' c l.
Proof.
  intros Hc Hi Ha [H1 H2 H3 H4 H5 H6].
  split; [done|congruence|done|..].
  - intros i. by rewrite Hi.
  - intros a. by rewrite Ha.
  - intros a att. rewrite Ha. apply H6.
Qed.

Lemma attestations_of_ext s s' c l :
  (∀ a, Attestation s' !! (c, a) = Attestation s !! (c, a)) ->
  attestations_of s' c l = attestations_of s c l.
Proof.
  intros Ha. unfold attestations_of.
  induction l as [|a l IH]; [done|]. cbn. by rewrite Ha, IH.
Qed.

Lemma count_after_length s c l a :
  index_inv s c l ->
  count_after s a c = Z.of_nat (length (attesters_after l a)).
Proof.
  intros Hinv. unfold count_after, attesters_after.
  pose proof (inv_attested _ _ _ Hinv a) as Ha.
  rewrite (inv_count _ _ _ Hinv).
  destruct (Attestation s !! (c, a)) as [att|].
  - rewrite decide_True; [done|]. apply Ha. eauto.
  - rewrite decide_False; [rewrite length_app; simpl; lia|].
    intros Hin. apply Ha in Hin. by destruct Hin.
Qed.

Lemma written_index_inv env a c m s l :
  index_inv s c l -> valid_measurement env m = true ->
  count_after s a c <= u32_MAX ->
  index_inv (written env a c m s) c (attesters_after l a).
Proof.
  intros Hinv Hvalid Hn.
  pose proof (count_after_length s c l a Hinv) as Hlen. rewrite Hlen in Hn.
  pose proof (valid_measurement_wf env a c m Hvalid) as Hwf.
  pose proof (inv_attested _ _ _ Hinv a) as Ha.
  pose proof (inv_count _ _ _ Hinv) as Hcount.
  unfold written, attesters_after, count_after in *.
  destruct (Attestation s !! (c, a)) as [old|] eqn:Hprior.
  - rewrite decide_True in * by (apply Ha; eauto).
    destruct Hinv as [H1 H2 H3 H4 H5 H6].
    split; [done|done|done|done|..]; cbn [Attestation put_Attestation].
    + intros a'. destruct (decide (a' = a)) as [->|Hne].
      * rewrite lookup_insert_eq. split; [eauto|]. intros _. apply H5. eauto.
      * rewrite lookup_insert_ne by congruence. apply H5.
    + intros a' att. destruct (decide (a' = a)) as [->|Hne].
      * rewrite lookup_insert_eq. by intros [= <-].
      * rewrite lookup_insert_ne by congruence. apply H6.
  - assert (Hnot : a ∉ l).
    { intros Hin. apply Ha in Hin. by destruct Hin. }
    rewrite decide_False in * by done.
    rewrite length_app in *. simpl length in *.
    destruct Hinv as [H1 H2 H3 H4 H5 H6].
    rewrite Hcount.
    split.
    + apply NoDup_app. split; [done|]. split; [|apply NoDup_singleton].
      intros x Hx Hx'. apply list_elem_of_singleton in Hx'. by subst.
    + unfold get_attestation_count. cbn. rewrite lookup_insert_eq.
      rewrite length_app. simpl. lia.
    + rewrite length_app. simpl. lia.
    + intros i. cbn.
      destruct (decide (i = Z.of_nat (length l))) as [->|Hne].
      * rewrite lookup_insert_eq. rewrite decide_True by lia.
        rewrite Nat2Z.id. by rewrite list_lookup_middle.
      * rewrite lookup_insert_ne by congruence. rewrite H4.
        destruct (decide (0 <= i)); [|done].
        destruct (decide (Z.to_nat i < length l)%nat).
        -- by rewrite lookup_app_l.
        -- rewrite !lookup_ge_None_2; [done| |lia].
           rewrite length_app. simpl. lia.
    + intros a'. cbn. rewrite elem_of_app, list_elem_of_singleton.
      destruct (decide (a' = a)) as [->|Hne].
      * rewrite lookup_insert_eq. split; eauto.
      * rewrite lookup_insert_ne by congruence. rewrite <- H5.
        split; [intros [?|?]; [done|congruence] | intros ?; by left].
    + intros a' att. cbn. destruct (decide (a' = a)) as [->|Hne].
      * rewrite lookup_insert_eq. by intros [= <-].
      * rewrite lookup_insert_ne by congruence. apply H6.
Qed.

Lemma written_other env a c m s c' :
  c' ≠ c ->
  get_attestation_count (written env a c m s) c' = get_attestation_count s c'
  ∧ (∀ i, CampaignAttesterIndex (written env a c m s) !! (c', i)
          = CampaignAttesterIndex s !! (c', i))
  ∧ (∀ a', Attestation (written env a c m s) !! (c', a')
           = Attestation s !! (c', a')).
Proof.
  intros Hne. unfold written, get_attestation_count.
  destruct (Attestation s !! (c, a)); cbn;
    repeat split; intros; rewrite ?lookup_insert_ne by congruence; done.
Qed.

Lemma written_config env a c m s :
  MinAttesters (written env a c m s) = MinAttesters s
  ∧ Consensus (written env a c m s) = Consensus s.
Proof. unfold written. by destruct (Attestation s !! (c, a)). Qed.

Lemma attesters_after_pos l a : 1 <= Z.of_nat (length (attesters_after l a)).
Proof.
  unfold attesters_after. destruct (decide (a ∈ l)) as [Hin|_].
  - destruct l; [by apply elem_of_nil in Hin|simpl; lia].
  - rewrite length_app. simpl. lia.
Qed.

Lemma attesters_after_length l a :
  Z.of_nat (length l) <= Z.of_nat (length (attesters_after l a)).
Proof.
  unfold attesters_after. destruct (decide (a ∈ l)); [lia|].
  rewrite length_app. simpl. lia.
Qed.

(** A call that passes the two checks: the writes, then the builder. *)
Lemma submit_spec env a c m s l :
  index_inv s c l ->
  is_authorized env a = true -> valid_measurement env m = true ->
  submit_attestation env a c m s
  = if decide (Z.of_nat (length (attesters_after l a)) <= u32_MAX)
    then match build_result env c
                 (attestations_of (written env a c m s) c (attesters_after l a))
                 (written env a c m s) with
         | Ok (_, s') => Ok (Z.of_nat (length (attesters_after l a)), s')
         | Err e => Err e
         end
    else Err Overflow.
Proof.
  intros Hinv Hauth Hvalid.
  pose proof (count_after_length s c l a Hinv) as Hlen.
  destruct (decide (Z.of_nat (length (attesters_after l a)) <= u32_MAX)) as [Hle|Hgt].
  - rewrite submit_unfold by (done || lia).
    rewrite Hlen.
    rewrite try_build_spec; [done| |apply attesters_after_pos].
    apply written_index_inv; [done|done|lia].
  - apply submit_count_overflow; [done|done|lia|].
    destruct (Attestation s !! (c, a)) as [old|] eqn:Hprior; [|done].
    exfalso. apply Hgt. unfold attesters_after.
    rewrite decide_True; [apply (inv_bound _ _ _ Hinv)|].
    apply (inv_attested _ _ _ Hinv). eauto.
Qed.

(** * The storage invariant holds in every reachable state *)

Lemma init_index_inv min_attesters c : index_inv (init min_attesters) c [].
Proof.
  split.
  - apply NoDup_nil_2.
  - reflexivity.
  - done.
  - intros i. cbn. rewrite lookup_empty. by destruct (decide (0 <= i)).
  - intros a. cbn. rewrite lookup_empty. split; [by intros ?%elem_of_nil|].
    by intros [? ?].
  - intros a att. cbn. by rewrite lookup_empty.
Qed.

Lemma init_inv min_attesters : inv (init min_attesters).
Proof.
  intros c. exists []. split; [apply init_index_inv|].
  split; [|by right]. intros r. cbn. by rewrite lookup_empty.
Qed.

Lemma put_Consensus_index_inv s c l c' r :
  index_inv s c l -> index_inv (put_Consensus c' r s) c l.
Proof. by apply index_inv_ext. Qed.

Lemma build_result_inv env s c l :
  (∀ c', c' ≠ c -> ∃ l', index_inv s c' l' ∧ consensus_inv s c' l') ->
  index_inv s c l ->
  1 <= Z.of_nat (length l) ->
  (∀ r, Consensus s !! c = Some r ->
        default 3 (MinAttesters s) <= Z.of_nat (length l)) ->
  ∀ s', build_result env c (attestations_of s c l) s = Ok (tt, s') ->
  inv s'.
Proof.
  intros Hothers Hinv Hpos Hquorum s'. unfold build_result.
  rewrite (index_inv_length _ _ _ Hinv).
  destruct (decide (Z.of_nat (length l) < default 3 (MinAttesters s)))
    as [Hlt|Hge].
  - intros [= <-]. intros c'. destruct (decide (c' = c)) as [->|Hne].
    + exists l. split; [done|]. split; [|by left].
      intros r Hr. apply Hquorum in Hr. lia.
    + by apply Hothers.
  - destruct (decide (counters_fit (attestations_of s c l))); [|done].
    intros [= <-]. intros c'. destruct (decide (c' = c)) as [->|Hne].
    + exists l. split; [by apply put_Consensus_index_inv|].
      split; cbn [Consensus put_Consensus]; rewrite lookup_insert_eq; [|done].
      intros r [= <-].
      split; [cbn [MinAttesters put_Consensus]; lia|]. split; [done|].
      reflexivity.
    + destruct (Hothers c' Hne) as (l' & Hi & Hc). exists l'.
      split; [by apply put_Consensus_index_inv|].
      unfold consensus_inv. cbn [Consensus put_Consensus].
      rewrite lookup_insert_ne by done. apply Hc.
Qed.

Lemma invoke_inv s call : inv s -> inv (snd (invoke s call)).
Proof.
  intros Hinv. unfold invoke.
  destruct call as [env a c m]; cbn [call_env call_attester call_campaign
    call_measurement].
  destruct (is_authorized env a) eqn:Hauth;
    [|by rewrite submit_unauthorized].
  destruct (valid_measurement env m) eqn:Hvalid;
    [|by rewrite submit_invalid].
  destruct (Hinv c) as (l & Hidx & Hcons).
  rewrite (submit_spec env a c m s l) by done.
  destruct (decide (Z.of_nat (length (attesters_after l a)) <= u32_MAX))
    as [Hle|]; [|done].
  destruct (build_result _ _ _ _) as [[[] s']|e] eqn:Hbuild; [|done].
  cbn [snd].
  pose proof (count_after_length s c l a Hidx) as Hlen.
  eapply (build_result_inv env (written env a c m s) c (attesters_after l a));
    [| |apply attesters_after_pos| |exact Hbuild].
  - intros c' Hne. destruct (Hinv c') as (l' & Hi' & Hc').
    destruct (written_other env a c m s c' Hne) as (E1 & E2 & E3).
    destruct (written_config env a c m s) as [E4 E5].
    exists l'. split; [by apply (index_inv_ext s)|].
    unfold consensus_inv.
    rewrite E4, E5, (attestations_of_ext s _ c' l') by done.
    apply Hc'.
  - apply written_index_inv; [done|done|lia].
  - destruct (written_config env a c m s) as [E4 E5].
    intros r. rewrite E4, E5. intros Hr. apply Hcons in Hr as [Hr _].
    pose proof (attesters_after_length l a). lia.
Qed.

Lemma run_inv calls : ∀ s, inv s -> inv (run s calls).
Proof.
  induction calls as [|call calls IH]; intros s Hs; [done|].
  cbn. apply IH. by apply invoke_inv.
Qed.

Lemma reachable_inv s : reachable s -> inv s.
Proof. intros (m & calls & ->). apply run_inv, init_inv. Qed.

(** * The indexed attestations are the stored ones *)

Lemma elem_of_stored_attestations s c att :
  att ∈ stored_attestations s c
  ↔ ∃ a, Attestation s !! (c, a) = Some att.
Proof.
  unfold stored_attestations. rewrite list_elem_of_fmap. split.
  - intros ([[c' a] att'] & -> & Hin).
    apply list_elem_of_filter in Hin as [Hc Hin]. cbn in Hc. subst c'.
    apply elem_of_map_to_list in Hin. eauto.
  - intros [a Ha]. exists ((c, a), att). split; [done|].
    apply list_elem_of_filter. split; [done|]. by apply elem_of_map_to_list.
Qed.

Lemma attestations_of_attesters s c l :
  index_inv s c l -> att_attester <$> attestations_of s c l = l.
Proof.
  intros Hinv. pose proof (index_inv_attestations _ _ _ Hinv) as Hall.
  revert Hall. generalize (attestations_of s c l) as atts. intros atts Hall.
  clear Hinv. induction Hall as [|a att l' atts [_ Hw] _ IH]; [done|].
  rewrite fmap_cons. destruct Hw as (_ & Ha & _). by rewrite Ha, IH.
Qed.

Lemma stored_attestations_perm s c l :
  index_inv s c l -> attestations_of s c l ≡ₚ stored_attestations s c.
Proof.
  intros Hinv. apply NoDup_Permutation.
  - apply (NoDup_fmap_1 att_attester).
    rewrite attestations_of_attesters by done. apply (inv_nodup _ _ _ Hinv).
  - unfold stored_attestations. apply NoDup_fmap_2_strong.
    + intros [[c1 a1] att1] [[c2 a2] att2] H1 H2 E. cbn in E. subst att2.
      apply list_elem_of_filter in H1 as [Hc1 H1].
      apply list_elem_of_filter in H2 as [Hc2 H2].
      cbn in Hc1, Hc2. subst c1 c2.
      apply elem_of_map_to_list in H1, H2.
      apply (inv_wf _ _ _ Hinv) in H1 as (_ & <- & _).
      apply (inv_wf _ _ _ Hinv) in H2 as (_ & <- & _). done.
    + apply NoDup_filter, NoDup_map_to_list.
  - intros att. rewrite elem_of_stored_attestations.
    unfold attestations_of. rewrite list_elem_of_omap. split.
    + intros (a & _ & Ha). eauto.
    + intros [a Ha]. exists a. split; [|done].
      apply (inv_attested _ _ _ Hinv). eauto.
Qed.

Lemma mean_perm {A} (f : A -> Z) atts1 atts2 :
  atts1 ≡ₚ atts2 -> mean f atts1 = mean f atts2.
Proof.
  intros H. unfold mean.
  by rewrite (total_perm f _ _ H), (Permutation_length H).
Qed.

(** * What a call that returns has done *)

Lemma index_inv_unique s c l1 l2 :
  index_inv s c l1 -> index_inv s c l2 -> l1 = l2.
Proof.
  intros H1 H2. apply list_eq. intros i.
  pose proof (inv_index _ _ _ H1 (Z.of_nat i)) as E1.
  pose proof (inv_index _ _ _ H2 (Z.of_nat i)) as E2.
  rewrite decide_True, Nat2Z.id in E1, E2 by lia. congruence.
Qed.

Lemma invoke_ok s env a c m n s' :
  inv s ->
  invoke s {| call_env := env; call_attester := a; call_campaign := c;
              call_measurement := m |} = (Ok n, s') ->
  ∃ l, index_inv s c l
    ∧ is_authorized env a = true ∧ valid_measurement env m = true
    ∧ n = Z.of_nat (length (attesters_after l a))
    ∧ index_inv (written env a c m s) c (attesters_after l a)
    ∧ ((n < default 3 (MinAttesters s) ∧ s' = written env a c m s)
       ∨ (default 3 (MinAttesters s) <= n
          ∧ counters_fit
              (attestations_of (written env a c m s) c (attesters_after l a))
          ∧ s' = put_Consensus c
                   (consensus_of c (ledger_timestamp env)
                      (attestations_of (written env a c m s) c
                         (attesters_after l a)))
                   (written env a c m s))).
Proof.
  intros Hinv. unfold invoke. cbn [call_env call_attester call_campaign
    call_measurement].
  destruct (is_authorized env a) eqn:Hauth;
    [|by rewrite submit_unauthorized].
  destruct (valid_measurement env m) eqn:Hvalid;
    [|by rewrite submit_invalid].
  destruct (Hinv c) as (l & Hidx & Hcons).
  rewrite (submit_spec env a c m s l) by done.
  destruct (decide (Z.of_nat (length (attesters_after l a)) <= u32_MAX))
    as [Hle|]; [|done].
  pose proof (count_after_length s c l a Hidx) as Hlen.
  assert (Hw : index_inv (written env a c m s) c (attesters_after l a))
    by (apply written_index_inv; [done|done|lia]).
  destruct (written_config env a c m s) as [E4 _].
  unfold build_result. rewrite (index_inv_length _ _ _ Hw), E4.
  destruct (decide (Z.of_nat (length (attesters_after l a))
                    < default 3 (MinAttesters s))) as [Hlt|Hge].
  - intros [= <- <-]. exists l. repeat (split; [done|]). by left.
  - destruct (decide (counters_fit _)) as [Hfit|]; [|done].
    intros [= <- <-]. exists l. repeat (split; [done|]). right.
    split; [lia|]. done.
Qed.

Lemma invoke_err s call e s' : invoke s call = (Err e, s') -> s' = s.
Proof.
  unfold invoke. destruct (submit_attestation _ _ _ _ _) as [[? ?]|]; congruence.
Qed.

(** * The scenario, evaluated *)

(** C9: with [min_attesters = 2], after A submits (1000, 100, 1000, 80) and
    B submits (2000, 200, 2000, 90) the consensus read back is exactly
    (1500, 150, 1500, 85) with two attesters and the reached flag set; after
    C then submits (9000, 900, 9000, 10) it is exactly (4000, 400, 4000, 60)
    with three attesters.  The ledger times of the three calls are
    arbitrary. *)
Theorem C9_concrete_scenario (t1 t2 t3 : Z) :
  get_consensus (run (init (Some 2)) [Scenario.A t1; Scenario.B t2]) 1
  = inl {| campaign_id := 1; total_attesters := 2;
           avg_impressions := 1500; avg_clicks := 150;
           avg_fraud_rate := 1500; avg_quality_score := 85;
           consensus_reached := true; last_updated := t2 |}
  ∧ get_consensus
      (run (init (Some 2)) [Scenario.A t1; Scenario.B t2; Scenario.C t3]) 1
    = inl {| campaign_id := 1; total_attesters := 3;
             avg_impressions := 4000; avg_clicks := 400;
             avg_fraud_rate := 4000; avg_quality_score := 60;
             consensus_reached := true; last_updated := t3 |}.
Proof. split; vm_compute; reflexivity. Qed.

(** * The consensus is the mean of all stored attestations *)

Lemma get_consensus_Some s c r :
  get_consensus s c = inl r ↔ Consensus s !! c = Some r.
Proof.
  unfold get_consensus. destruct (Consensus s !! c); split; congruence.
Qed.

Lemma get_consensus_None s c :
  get_consensus s c = inr NotReached ↔ Consensus s !! c = None.
Proof.
  unfold get_consensus. destruct (Consensus s !! c); split; congruence.
Qed.

(** The record computed from the indexed attestations is the record of the
    means over all stored attestations. *)
Lemma consensus_of_stored s c l now :
  index_inv s c l -> 1 <= Z.of_nat (length l) ->
  means_of_all_stored s c (consensus_of c now (attestations_of s c l)).
Proof.
  intros Hidx Hpos.
  pose proof (stored_attestations_perm s c l Hidx) as Hperm.
  pose proof (index_inv_length s c l Hidx) as Hlen.
  pose proof (Permutation_length Hperm) as Hlen'.
  unfold means_of_all_stored.
  cbn [total_attesters avg_impressions avg_clicks avg_fraud_rate
    avg_quality_score consensus_of]. unfold mean.
  rewrite <- !(total_perm _ _ _ Hperm), <- Hlen'.
  split; [lia|]. split.
  { rewrite <- Hperm, attestations_of_attesters by done.
    apply (inv_nodup _ _ _ Hidx). }
  split; [done|]. split; [rewrite (inv_count _ _ _ Hidx); lia|]. done.
Qed.

(** In a state that satisfies the invariant, a stored consensus is the
    record computed from every stored attestation of its campaign. *)
Lemma consensus_current s c r :
  inv s -> Consensus s !! c = Some r ->
  default 3 (MinAttesters s) <= get_attestation_count s c
  ∧ campaign_id r = c
  ∧ consensus_reached r = true
  ∧ means_of_all_stored s c r.
Proof.
  intros Hinv Hr. destruct (Hinv c) as (l & Hidx & Hcons & _).
  destruct (Hcons r Hr) as (Hmin & Hpos & Er).
  split; [rewrite (inv_count _ _ _ Hidx); lia|].
  rewrite Er. split; [done|]. split; [done|].
  by apply consensus_of_stored.
Qed.

(** What the builder writes at quorum. *)
Lemma build_at_quorum env s c s' :
  indexed s c ->
  1 <= get_attestation_count s c ->
  default 3 (MinAttesters s) <= get_attestation_count s c ->
  _try_build_consensus env c (get_attestation_count s c) s = Ok (tt, s') ->
  ∃ l, index_inv s c l
     ∧ counters_fit (attestations_of s c l)
     ∧ s' = put_Consensus c
              (consensus_of c (ledger_timestamp env) (attestations_of s c l))
              s.
Proof.
  intros [l Hidx] Hpos Hmin. rewrite (inv_count _ _ _ Hidx) in *.
  rewrite (try_build_spec env s c l) by done. unfold build_result.
  rewrite (index_inv_length _ _ _ Hidx).
  rewrite decide_False by lia.
  destruct (decide (counters_fit (attestations_of s c l))); [|done].
  intros [= <-]. by exists l.
Qed.

(** C1: a consensus write of the builder stores a record with the reached
    flag whose four averages are the truncated quotients [sum ÷ n] of the
    sums of the field over all [n] attestations stored for the campaign,
    [n] being [total_attesters], the attester count and the number of
    pairwise distinct attesters; and in every reachable state every stored
    consensus record is that record for the attestations stored then.  No
    subset and no single attestation stands in. *)
Theorem C1_averages_over_all_stored :
  (∀ env s campaign s',
     indexed s campaign ->
     1 <= get_attestation_count s campaign ->
     default 3 (MinAttesters s) <= get_attestation_count s campaign ->
     _try_build_consensus env campaign (get_attestation_count s campaign) s
     = Ok (tt, s') ->
     ∃ r, get_consensus s' campaign = inl r
        ∧ consensus_reached r = true
        ∧ means_of_all_stored s' campaign r)
  ∧ (∀ s campaign r,
     reachable s ->
     get_consensus s campaign = inl r ->
     consensus_reached r = true ->
     means_of_all_stored s campaign r).
Proof.
  split.
  - intros env s c s' Hidx Hpos Hmin Hbuild.
    destruct (build_at_quorum env s c s' Hidx Hpos Hmin Hbuild)
      as (l & Hl & _ & ->).
    exists (consensus_of c (ledger_timestamp env) (attestations_of s c l)).
    split; [|split; [reflexivity|]].
    + apply get_consensus_Some. cbn. by rewrite lookup_insert_eq.
    + rewrite (inv_count _ _ _ Hl) in Hpos.
      by apply (consensus_of_stored s c l).
  - intros s c r Hreach Hget _.
    apply reachable_inv in Hreach. apply get_consensus_Some in Hget.
    by destruct (consensus_current s c r Hreach Hget) as (_ & _ & _ & ?).
Qed.

Lemma C1_witness :
  let s := run (init (Some 2)) [Scenario.A 10; Scenario.B 20] in
  let atts := stored_attestations s 1 in
  (∃ r, get_consensus s 1 = inl r
      ∧ avg_impressions r = total impressions_verified atts ÷ 2
      ∧ avg_quality_score r = total quality_score atts ÷ 2)
  ∧ (∃ s' r, _try_build_consensus (Scenario.env 30) 1 2 s = Ok (tt, s')
           ∧ get_consensus s' 1 = inl r
           ∧ means_of_all_stored s' 1 r).
Proof.
  intros s atts.
  assert (Hreach : reachable s)
    by (by exists (Some 2), [Scenario.A 10; Scenario.B 20]).
  destruct C1_averages_over_all_stored as [Hbuilt Hstored].
  split.
  - exists {| campaign_id := 1; total_attesters := 2;
              avg_impressions := 1500; avg_clicks := 150;
              avg_fraud_rate := 1500; avg_quality_score := 85;
              consensus_reached := true; last_updated := 20 |}.
    assert (Hget : get_consensus s 1
                   = inl {| campaign_id := 1; total_attesters := 2;
                            avg_impressions := 1500; avg_clicks := 150;
                            avg_fraud_rate := 1500; avg_quality_score := 85;
                            consensus_reached := true; last_updated := 20 |})
      by (vm_compute; reflexivity).
    destruct (Hstored s 1 _ Hreach Hget eq_refl)
      as (_ & _ & Htot & _ & Hi & _ & _ & Hq).
    cbn [total_attesters] in Htot.
    split; [exact Hget|]. split.
    + rewrite Htot. exact Hi.
    + rewrite Htot. exact Hq.
  - set (r := {| campaign_id := 1; total_attesters := 2;
                 avg_impressions := 1500; avg_clicks := 150;
                 avg_fraud_rate := 1500; avg_quality_score := 85;
                 consensus_reached := true; last_updated := 30 |}).
    assert (Hrun : _try_build_consensus (Scenario.env 30) 1 2 s
                   = Ok (tt, put_Consensus 1 r s))
      by (vm_compute; reflexivity).
    destruct (Hbuilt (Scenario.env 30) s 1 (put_Consensus 1 r s))
      as (r' & Hr' & _ & Hall).
    + destruct (reachable_inv s Hreach 1) as (l & Hl & _). by exists l.
    + vm_compute. discriminate.
    + vm_compute. discriminate.
    + exact Hrun.
    + exists (put_Consensus 1 r s), r'. split; [exact Hrun|]. by split.
Defined.

(** * Rejected submissions *)

(** C7: a call by an attester who is not authorized fails with
    [Unauthorized]; a call by an authorized attester with a field outside its
    range fails with [InvalidMeasurement]; in both cases, and after any other
    failure, the storage (attestations, index, count, consensus records) is
    the one before the call, and the caller gets the failure, not a count. *)
Theorem C7_rejected_submission_changes_nothing (s : Storage) (call : Call) :
  (is_authorized (call_env call) (call_attester call) = false ->
     invoke s call = (Err Unauthorized, s))
  ∧ (is_authorized (call_env call) (call_attester call) = true ->
     valid_measurement (call_env call) (call_measurement call) = false ->
     invoke s call = (Err InvalidMeasurement, s))
  ∧ (∀ e s', invoke s call = (Err e, s') -> s' = s).
Proof.
  split; [|split].
  - intros H. unfold invoke. by rewrite submit_unauthorized.
  - intros H1 H2. unfold invoke. by rewrite submit_invalid.
  - intros e s'. apply invoke_err.
Qed.

Lemma C7_witness :
  let s := run (init (Some 2)) [Scenario.A 10; Scenario.B 20] in
  let outsider :=
    {| call_env := {| ledger_timestamp := 30;
                      is_authorized := fun a => bool_decide (a ≠ "C");
                      fraud_rate_max := 10000; quality_score_max := 100 |};
       call_attester := "C"; call_campaign := 1;
       call_measurement := Scenario.measurement 9000 900 9000 10 |} in
  let out_of_range :=
    Scenario.submit 30 "C" 1 (Scenario.measurement 9000 900 9000 101) in
  let s0 := run (init (Some 2)) [Scenario.huge 10 "A"] in
  invoke s outsider = (Err Unauthorized, s)
  ∧ invoke s out_of_range = (Err InvalidMeasurement, s)
  ∧ snd (invoke s0 (Scenario.huge 20 "B")) = s0.
Proof.
  intros s outsider out_of_range s0. split; [|split].
  - apply (C7_rejected_submission_changes_nothing s outsider). reflexivity.
  - apply (C7_rejected_submission_changes_nothing s out_of_range);
      reflexivity.
  - destruct (C7_rejected_submission_changes_nothing s0
                (Scenario.huge 20 "B")) as (_ & _ & Hsame).
    apply (Hsame Overflow). vm_compute. reflexivity.
Defined.

(** * Quorum gating *)

(** C2: below the floor the builder computes nothing and returns the storage
    as it was; a reachable campaign whose count is below [min_attesters] has
    no consensus ([NotReached]); and the call that brings the count to
    exactly [min_attesters] leaves, on return, the consensus of all stored
    attestations readable. *)
Theorem C2_quorum_gating :
  (∀ env s campaign n,
     n < default 3 (MinAttesters s) ->
     _try_build_consensus env campaign n s = Ok (tt, s))
  ∧ (∀ s campaign,
     reachable s ->
     get_attestation_count s campaign < default 3 (MinAttesters s) ->
     get_consensus s campaign = inr NotReached)
  ∧ (∀ s call n s',
     reachable s ->
     invoke s call = (Ok n, s') ->
     n = default 3 (MinAttesters s) ->
     get_attestation_count s' (call_campaign call) = n
     ∧ ∃ r, get_consensus s' (call_campaign call) = inl r
          ∧ consensus_reached r = true
          ∧ total_attesters r = n
          ∧ last_updated r = ledger_timestamp (call_env call)
          ∧ means_of_all_stored s' (call_campaign call) r).
Proof.
  split; [|split].
  - intros env s c n Hlt. unfold _try_build_consensus. unfold_monad.
    by destruct (Z.ltb_spec n (default 3 (MinAttesters s))); [|lia].
  - intros s c Hreach Hlt. apply reachable_inv in Hreach.
    apply get_consensus_None.
    destruct (Consensus s !! c) as [r|] eqn:Hr; [|done].
    destruct (consensus_current s c r Hreach Hr) as (Hmin & _).
    lia.
  - intros s [env a c m] n s' Hreach Hinvoke Hn.
    cbn [call_campaign call_env].
    pose proof (reachable_inv _ Hreach) as Hinv.
    pose proof (invoke_inv s (Build_Call env a c m) Hinv) as Hinv'.
    rewrite Hinvoke in Hinv'. cbn [snd] in Hinv'.
    destruct (invoke_ok s env a c m n s' Hinv Hinvoke)
      as (l & Hidx & _ & _ & Hlen & Hw & [[Hlt _]|(_ & _ & ->)]); [lia|].
    set (r := consensus_of c (ledger_timestamp env) _) in *.
    assert (Hr : Consensus (put_Consensus c r (written env a c m s)) !! c
                 = Some r) by (cbn; by rewrite lookup_insert_eq).
    destruct (consensus_current _ c r Hinv' Hr) as (_ & _ & Hreached & Hall).
    pose proof (put_Consensus_index_inv _ _ _ c r Hw) as Hw'.
    split; [rewrite (inv_count _ _ _ Hw'); lia|].
    exists r. rewrite get_consensus_Some.
    repeat split; try done; try apply Hall.
    destruct Hall as (_ & _ & -> & <- & _).
    rewrite (inv_count _ _ _ Hw'). lia.
Qed.

Lemma C2_witness :
  let s1 := run (init (Some 2)) [Scenario.A 10] in
  _try_build_consensus (Scenario.env 10) 1 1 s1 = Ok (tt, s1)
  ∧ get_consensus s1 1 = inr NotReached
  ∧ ∃ r, get_consensus (run (init (Some 2)) [Scenario.A 10; Scenario.B 20]) 1
         = inl r
       ∧ total_attesters r = 2.
Proof.
  intros s1. destruct C2_quorum_gating as (Hskip & Hbelow & Hat).
  split; [|split].
  - apply Hskip. vm_compute. reflexivity.
  - apply Hbelow.
    + by exists (Some 2), [Scenario.A 10].
    + vm_compute. reflexivity.
  - destruct (Hat s1 (Scenario.B 20) 2
                  (run (init (Some 2)) [Scenario.A 10; Scenario.B 20]))
      as (_ & r & Hr & _ & Htot & _).
    + by exists (Some 2), [Scenario.A 10].
    + vm_compute. reflexivity.
    + reflexivity.
    + exists r. split; [exact Hr|exact Htot].
Defined.

(** * Overflow of the accumulators *)

Lemma sum_exceeds_counters s c l :
  index_inv s c l ->
  sum_exceeds (stored_attestations s c) ->
  ¬ counters_fit (attestations_of s c l).
Proof.
  intros Hinv Hex Hfit.
  pose proof (stored_attestations_perm s c l Hinv) as Hperm.
  apply (sums_fit_counters s c l Hinv) in Hfit.
  unfold sum_exceeds in Hex. rewrite <- !(total_perm _ _ _ Hperm) in Hex.
  unfold sums_fit, plus, zero_sums in Hfit. simpl in Hfit. lia.
Qed.

(** C6: when the sum of a field over the attestations of the campaign
    exceeds the 64-bit accumulator, the builder aborts with [Overflow] and
    returns no storage; the call that triggered it fails with [Overflow] and
    leaves the whole storage, any earlier consensus record included, as it
    was. *)
Theorem C6_overflow_aborts_without_write :
  (∀ env s campaign l,
     index_inv s campaign l ->
     1 <= Z.of_nat (length l) ->
     default 3 (MinAttesters s) <= Z.of_nat (length l) ->
     sum_exceeds (stored_attestations s campaign) ->
     _try_build_consensus env campaign (Z.of_nat (length l)) s = Err Overflow)
  ∧ (∀ env s campaign l s',
     index_inv s campaign l ->
     1 <= Z.of_nat (length l) ->
     _try_build_consensus env campaign (Z.of_nat (length l)) s = Ok (tt, s') ->
     s' = s
     ∨ s' = put_Consensus campaign
              (consensus_of campaign (ledger_timestamp env)
                 (attestations_of s campaign l)) s)
  ∧ (∀ s call,
     reachable s ->
     is_authorized (call_env call) (call_attester call) = true ->
     valid_measurement (call_env call) (call_measurement call) = true ->
     default 3 (MinAttesters s)
       <= count_after s (call_attester call) (call_campaign call) ->
     sum_exceeds
       (stored_attestations
          (written (call_env call) (call_attester call) (call_campaign call)
             (call_measurement call) s)
          (call_campaign call)) ->
     invoke s call = (Err Overflow, s)).
Proof.
  split; [|split].
  - intros env s c l Hinv Hpos Hmin Hex.
    rewrite (try_build_spec env s c l) by done. unfold build_result.
    rewrite (index_inv_length _ _ _ Hinv).
    rewrite decide_False by lia.
    rewrite decide_False; [done|]. by apply sum_exceeds_counters.
  - intros env s c l s' Hinv Hpos.
    rewrite (try_build_spec env s c l) by done. unfold build_result.
    repeat case_decide; intros [= <-]; auto.
  - intros s [env a c m]. cbn [call_env call_attester call_campaign
      call_measurement]. intros Hreach Hauth Hvalid Hmin Hex.
    apply reachable_inv in Hreach. destruct (Hreach c) as (l & Hidx & _).
    unfold invoke. cbn [call_env call_attester call_campaign
      call_measurement].
    rewrite (submit_spec env a c m s l) by done.
    pose proof (count_after_length s c l a Hidx) as Hlen.
    destruct (decide (Z.of_nat (length (attesters_after l a)) <= u32_MAX))
      as [Hle|]; [|done].
    assert (Hw : index_inv (written env a c m s) c (attesters_after l a))
      by (apply written_index_inv; [done|done|lia]).
    destruct (written_config env a c m s) as [E4 _].
    unfold build_result. rewrite (index_inv_length _ _ _ Hw), E4.
    rewrite decide_False by lia.
    rewrite decide_False; [done|]. by apply sum_exceeds_counters.
Qed.

Lemma C6_witness :
  let s := run (init (Some 2)) [Scenario.huge 10 "A"] in
  let s1 := written (Scenario.env 20) "B" 1
              (Scenario.measurement (2 ^ 63) 1 0 0) s in
  let s2 := run (init (Some 2)) [Scenario.A 10; Scenario.B 20] in
  invoke s (Scenario.huge 20 "B") = (Err Overflow, s)
  ∧ _try_build_consensus (Scenario.env 20) 1 2 s1 = Err Overflow
  ∧ (∃ l s',
       _try_build_consensus (Scenario.env 30) 1 2 s2 = Ok (tt, s')
       ∧ (s' = s2
          ∨ s' = put_Consensus 1
                   (consensus_of 1 30 (attestations_of s2 1 l)) s2)).
Proof.
  intros s s1 s2.
  destruct C6_overflow_aborts_without_write as (Habort & Hwrite & Hcall).
  assert (Hreach : reachable s)
    by (by exists (Some 2), [Scenario.huge 10 "A"]).
  assert (Hreach2 : reachable s2)
    by (by exists (Some 2), [Scenario.A 10; Scenario.B 20]).
  split; [|split].
  - apply (Hcall s (Scenario.huge 20 "B")).
    + exact Hreach.
    + reflexivity.
    + reflexivity.
    + vm_compute. discriminate.
    + left. vm_compute. reflexivity.
  - destruct (reachable_inv s Hreach 1) as (l & Hl & _).
    assert (Hw : index_inv s1 1 (attesters_after l "B")).
    { apply written_index_inv; [exact Hl|reflexivity|].
      vm_compute. discriminate. }
    assert (Hlen : Z.of_nat (length (attesters_after l "B")) = 2).
    { rewrite <- (inv_count _ _ _ Hw). vm_compute. reflexivity. }
    rewrite <- Hlen. apply Habort.
    + exact Hw.
    + rewrite Hlen. lia.
    + rewrite Hlen. vm_compute. discriminate.
    + left. vm_compute. reflexivity.
  - destruct (reachable_inv s2 Hreach2 1) as (l & Hl & _).
    assert (Hlen : Z.of_nat (length l) = 2).
    { rewrite <- (inv_count _ _ _ Hl). vm_compute. reflexivity. }
    set (r := {| campaign_id := 1; total_attesters := 2;
                 avg_impressions := 1500; avg_clicks := 150;
                 avg_fraud_rate := 1500; avg_quality_score := 85;
                 consensus_reached := true; last_updated := 30 |}).
    assert (Hrun : _try_build_consensus (Scenario.env 30) 1 2 s2
                   = Ok (tt, put_Consensus 1 r s2))
      by (vm_compute; reflexivity).
    exists l, (put_Consensus 1 r s2). split; [exact Hrun|].
    apply (Hwrite (Scenario.env 30) s2 1 l _ Hl).
    + rewrite Hlen. lia.
    + rewrite Hlen. exact Hrun.
Defined.

(** * The reached flag along a run *)

Lemma run_snoc s calls call :
  run s (calls ++ [call]) = snd (invoke (run s calls) call).
Proof. unfold run. by rewrite foldl_app. Qed.

Lemma run_app s calls1 calls2 :
  run s (calls1 ++ calls2) = run (run s calls1) calls2.
Proof. unfold run. by rewrite foldl_app. Qed.

Lemma reachable_invoke s call : reachable s -> reachable (snd (invoke s call)).
Proof.
  intros (m & calls & ->). exists m, (calls ++ [call]). by rewrite run_snoc.
Qed.

Lemma reachable_run s calls : reachable s -> reachable (run s calls).
Proof.
  intros (m & calls0 & ->). exists m, (calls0 ++ calls). by rewrite run_app.
Qed.

(** * Histories with changes of the floor *)

Lemma invoke_ok_indexed s env a c m n s' :
  indexed s c ->
  invoke s {| call_env := env; call_attester := a; call_campaign := c;
              call_measurement := m |} = (Ok n, s') ->
  ∃ l, index_inv s c l
    ∧ n = Z.of_nat (length (attesters_after l a))
    ∧ index_inv (written env a c m s) c (attesters_after l a)
    ∧ ((n < default 3 (MinAttesters s) ∧ s' = written env a c m s)
       ∨ (default 3 (MinAttesters s) <= n
          ∧ s' = put_Consensus c
                   (consensus_of c (ledger_timestamp env)
                      (attestations_of (written env a c m s) c
                         (attesters_after l a)))
                   (written env a c m s))).
Proof.
  intros [l Hidx]. unfold invoke. cbn [call_env call_attester call_campaign
    call_measurement].
  destruct (is_authorized env a) eqn:Hauth;
    [|by rewrite submit_unauthorized].
  destruct (valid_measurement env m) eqn:Hvalid;
    [|by rewrite submit_invalid].
  rewrite (submit_spec env a c m s l) by done.
  destruct (decide (Z.of_nat (length (attesters_after l a)) <= u32_MAX))
    as [Hle|]; [|done].
  pose proof (count_after_length s c l a Hidx) as Hlen.
  assert (Hw : index_inv (written env a c m s) c (attesters_after l a))
    by (apply written_index_inv; [done|done|lia]).
  destruct (written_config env a c m s) as [E4 _].
  unfold build_result. rewrite (index_inv_length _ _ _ Hw), E4.
  destruct (decide (Z.of_nat (length (attesters_after l a))
                    < default 3 (MinAttesters s))) as [Hlt|Hge].
  - intros [= <- <-]. exists l. repeat (split; [done|]). by left.
  - destruct (decide (counters_fit _)) as [Hfit|]; [|done].
    intros [= <- <-]. exists l. repeat (split; [done|]). right.
    split; [lia|]. done.
Qed.

Lemma init_records_inv min_attesters : records_inv (init min_attesters).
Proof.
  intros c. split; [exists []; apply init_index_inv|].
  intros r. cbn. by rewrite lookup_empty.
Qed.

Lemma invoke_records_inv s call :
  records_inv s -> records_inv (snd (invoke s call)).
Proof.
  intros Hinv. destruct (invoke s call) as [[n|e] s'] eqn:Hinvoke; cbn [snd];
    [|by apply invoke_err in Hinvoke as ->].
  destruct call as [env a c0 m].
  destruct (invoke_ok_indexed s env a c0 m n s' (proj1 (Hinv c0)) Hinvoke)
    as (l & Hidx & Hn & Hw & Hs').
  destruct (written_config env a c0 m s) as [_ Econs].
  assert (Hframe : ∀ c,
            indexed (written env a c0 m s) c
            ∧ get_attestation_count s c
              <= get_attestation_count (written env a c0 m s) c).
  { intros c. destruct (decide (c = c0)) as [->|Hne].
    - split; [by exists (attesters_after l a)|].
      rewrite (inv_count _ _ _ Hw), (inv_count _ _ _ Hidx).
      apply attesters_after_length.
    - destruct (written_other env a c0 m s c Hne) as (E1 & E2 & E3).
      destruct (proj1 (Hinv c)) as [lc Hlc].
      split; [exists lc; by apply (index_inv_ext s)|lia]. }
  intros c. destruct (Hframe c) as [[lc Hlc] Hcount].
  destruct (Hinv c) as [_ Hrec].
  destruct Hs' as [[_ ->]|(_ & ->)].
  - split; [by exists lc|]. intros r. rewrite Econs. intros Hr.
    destruct (Hrec r Hr) as (? & ? & ?). repeat split; try done; lia.
  - split; [exists lc; by apply put_Consensus_index_inv|].
    intros r. cbn [Consensus put_Consensus].
    change (get_attestation_count (put_Consensus _ _ ?x) c)
      with (get_attestation_count x c).
    destruct (decide (c = c0)) as [->|Hne].
    + rewrite lookup_insert_eq. intros [= <-].
      cbn [consensus_reached campaign_id total_attesters consensus_of].
      rewrite (index_inv_length _ _ _ Hw), (inv_count _ _ _ Hw).
      pose proof (attesters_after_pos l a). repeat split; try done; lia.
    + rewrite lookup_insert_ne by done. rewrite Econs. intros Hr.
      destruct (Hrec r Hr) as (? & ? & ?). repeat split; try done; lia.
Qed.

Lemma step_records_inv s st : records_inv s -> records_inv (step s st).
Proof.
  intros Hinv. destruct st as [call|v]; [by apply invoke_records_inv|].
  intros c. destruct (Hinv c) as [[l Hl] Hrec].
  split; [exists l; by apply (index_inv_ext s)|exact Hrec].
Qed.

Lemma steps_records_inv sts : ∀ s, records_inv s -> records_inv (steps s sts).
Proof.
  induction sts as [|st sts IH]; intros s Hs; [done|].
  cbn. apply IH. by apply step_records_inv.
Qed.

Lemma administered_records_inv s : administered s -> records_inv s.
Proof. intros (m & sts & ->). apply steps_records_inv, init_records_inv. Qed.

Lemma administered_steps s sts : administered s -> administered (steps s sts).
Proof.
  intros (m & sts0 & ->). exists m, (sts0 ++ sts).
  unfold steps. by rewrite foldl_app.
Qed.

(** The histories without a change of the floor are among all histories. *)
Lemma reachable_administered s : reachable s -> administered s.
Proof.
  intros (m & calls & ->). exists m, (Submit <$> calls).
  generalize (init m). induction calls as [|call calls IH]; intros s; [done|].
  cbn. apply IH.
Qed.

(** A call that returns with a count at or above the floor in force writes
    the record of all attestations stored after it. *)
Lemma invoke_recomputes s call n s' :
  records_inv s ->
  invoke s call = (Ok n, s') ->
  default 3 (MinAttesters s) <= n ->
  ∃ r', get_consensus s' (call_campaign call) = inl r'
      ∧ consensus_reached r' = true
      ∧ last_updated r' = ledger_timestamp (call_env call)
      ∧ total_attesters r' = n
      ∧ indexed s' (call_campaign call)
      ∧ means_of_all_stored s' (call_campaign call) r'.
Proof.
  intros Hinv Hinvoke Hmin. destruct call as [env a c m].
  cbn [call_campaign call_env].
  destruct (invoke_ok_indexed s env a c m n s' (proj1 (Hinv c)) Hinvoke)
    as (l & Hidx & Hn & Hw & [[Hlt _]|(_ & ->)]); [lia|].
  eexists. split; [apply get_consensus_Some; cbn; by rewrite lookup_insert_eq|].
  split; [done|]. split; [done|].
  split; [cbn; by rewrite (index_inv_length _ _ _ Hw)|].
  split; [exists (attesters_after l a); by apply put_Consensus_index_inv|].
  exact (consensus_of_stored (written env a c m s) c (attesters_after l a)
           (ledger_timestamp env) Hw (attesters_after_pos l a)).
Qed.

(** A call that returns with a count below the floor in force writes no
    record and leaves the stored ones as they are. *)
Lemma invoke_below_floor s call n s' :
  records_inv s ->
  invoke s call = (Ok n, s') ->
  n < default 3 (MinAttesters s) ->
  Consensus s' = Consensus s.
Proof.
  intros Hinv Hinvoke Hlt. destruct call as [env a c m].
  destruct (invoke_ok_indexed s env a c m n s' (proj1 (Hinv c)) Hinvoke)
    as (l & _ & _ & _ & [[_ ->]|(? & _)]); [|lia].
  apply written_config.
Qed.

(** A call never returns a count below the number of attesters of the
    record its campaign holds. *)
Lemma invoke_count_of_record s call n s' r :
  records_inv s ->
  invoke s call = (Ok n, s') ->
  Consensus s !! call_campaign call = Some r ->
  total_attesters r <= n.
Proof.
  intros Hinv Hinvoke Hr. destruct call as [env a c m].
  cbn [call_campaign] in Hr.
  destruct (invoke_ok_indexed s env a c m n s' (proj1 (Hinv c)) Hinvoke)
    as (l & Hidx & -> & _).
  destruct (Hinv c) as [_ Hrec]. destruct (Hrec r Hr) as (_ & _ & Hle).
  rewrite (inv_count _ _ _ Hidx) in Hle.
  pose proof (attesters_after_length l a). lia.
Qed.

(** C8, as the code has it: a stored consensus record always carries the
    reached flag, and a campaign that holds a record keeps one with the flag
    set through every later history of submissions and changes of the floor.
    A submission that returns with the count at or above the floor then in
    force, which is every returning submission on a campaign whose record
    was computed from at least as many attesters as that floor asks for,
    rewrites the record from all attestations stored at that moment.  A
    submission that returns with the count below the floor in force, as
    after the floor was raised, stores its attestation and leaves every
    record as it was. *)
Theorem C8_reached_is_monotone_and_recomputed :
  (∀ s sts campaign r,
     administered s ->
     get_consensus s campaign = inl r ->
     consensus_reached r = true
     ∧ ∃ r', get_consensus (steps s sts) campaign = inl r'
           ∧ consensus_reached r' = true)
  ∧ (∀ s call n s',
     administered s ->
     invoke s call = (Ok n, s') ->
     default 3 (MinAttesters s) <= n
       ∨ (∃ r, get_consensus s (call_campaign call) = inl r
             ∧ default 3 (MinAttesters s) <= total_attesters r) ->
     ∃ r', get_consensus s' (call_campaign call) = inl r'
         ∧ consensus_reached r' = true
         ∧ last_updated r' = ledger_timestamp (call_env call)
         ∧ total_attesters r' = n
         ∧ means_of_all_stored s' (call_campaign call) r')
  ∧ (∀ s call n s',
     administered s ->
     invoke s call = (Ok n, s') ->
     n < default 3 (MinAttesters s) ->
     (∀ campaign, get_consensus s' campaign = get_consensus s campaign)
     ∧ is_Some (Attestation s' !! (call_campaign call, call_attester call))).
Proof.
  split; [|split].
  - intros s sts c r Hadm Hget.
    pose proof (administered_records_inv s Hadm) as Hinv.
    apply get_consensus_Some in Hget.
    split; [by destruct (proj2 (Hinv c) r Hget)|].
    clear Hinv. revert s r Hadm Hget.
    induction sts as [|st sts IH]; intros s r Hadm Hget.
    + exists r. split; [by apply get_consensus_Some|].
      by destruct (proj2 (administered_records_inv s Hadm c) r Hget).
    + cbn [steps foldl]. fold (steps (step s st) sts).
      assert (Hkept : is_Some (Consensus (step s st) !! c)).
      { destruct st as [call|v]; cbn [step]; [|cbn; eauto].
        pose proof (administered_records_inv s Hadm) as Hinv.
        destruct (invoke s call) as [[n|e] s'] eqn:Hinvoke; cbn [snd];
          [|apply invoke_err in Hinvoke as ->; eauto].
        destruct (Z.lt_ge_cases n (default 3 (MinAttesters s))) as [Hlt|Hge].
        - rewrite (invoke_below_floor s call n s' Hinv Hinvoke Hlt). eauto.
        - destruct (decide (call_campaign call = c)) as [<-|Hne].
          + destruct (invoke_recomputes s call n s' Hinv Hinvoke Hge)
              as (r' & Hr' & _). apply get_consensus_Some in Hr'. eauto.
          + destruct call as [env a c0 m]. cbn [call_campaign] in Hne.
            destruct (invoke_ok_indexed s env a c0 m n s'
                        (proj1 (Hinv c0)) Hinvoke)
              as (l & _ & _ & _ & [[_ ->]|(_ & ->)]).
            * rewrite (proj2 (written_config env a c0 m s)). eauto.
            * cbn [Consensus put_Consensus].
              rewrite lookup_insert_ne by done.
              rewrite (proj2 (written_config env a c0 m s)). eauto. }
      destruct Hkept as [r1 Hr1].
      apply (IH (step s st) r1); [|done].
      by apply (administered_steps s [st]).
  - intros s call n s' Hadm Hinvoke Hcross.
    pose proof (administered_records_inv s Hadm) as Hinv.
    destruct (invoke_recomputes s call n s' Hinv Hinvoke)
      as (r' & ? & ? & ? & ? & _ & ?); [|by exists r'].
    destruct Hcross as [?|(r & Hr & Hfloor)]; [done|].
    apply get_consensus_Some in Hr.
    pose proof (invoke_count_of_record s call n s' r Hinv Hinvoke Hr). lia.
  - intros s call n s' Hadm Hinvoke Hlt.
    pose proof (administered_records_inv s Hadm) as Hinv.
    split.
    + intros c. unfold get_consensus.
      by rewrite (invoke_below_floor s call n s' Hinv Hinvoke Hlt).
    + destruct call as [env a c m]. cbn [call_campaign call_attester].
      destruct (invoke_ok_indexed s env a c m n s' (proj1 (Hinv c)) Hinvoke)
        as (l & _ & _ & Hw & [[_ ->]|(? & _)]); [|lia].
      apply (inv_attested _ _ _ Hw). unfold attesters_after.
      destruct (decide (a ∈ l)); [done|].
      apply elem_of_app. right. by left.
Qed.

Lemma C8_witness :
  let s := steps (init (Some 2))
             [Submit (Scenario.A 10); Submit (Scenario.B 20)] in
  (∃ r', get_consensus
           (steps s [Submit (Scenario.C 30); SetMinAttesters 7;
                     Submit (Scenario.A 40)]) 1 = inl r'
       ∧ consensus_reached r' = true)
  ∧ (∃ r', get_consensus (snd (invoke s (Scenario.C 30))) 1 = inl r'
         ∧ last_updated r' = 30 ∧ total_attesters r' = 3)
  ∧ (∃ r', get_consensus
             (snd (invoke (put_MinAttesters 1 s) (Scenario.C 30))) 1 = inl r'
         ∧ last_updated r' = 30 ∧ total_attesters r' = 3)
  ∧ get_consensus (snd (invoke (put_MinAttesters 5 s) (Scenario.C 30))) 1
    = get_consensus s 1.
Proof.
  intros s. destruct C8_reached_is_monotone_and_recomputed
    as (Hkeep & Hre & Hstale).
  assert (Hadm : administered s) by (by eexists (Some 2), _).
  assert (Hadm' : ∀ v, administered (put_MinAttesters v s))
    by (intros v; apply (administered_steps s [SetMinAttesters v] Hadm)).
  split; [|split; [|split]].
  - apply (Hkeep s _ 1
             {| campaign_id := 1; total_attesters := 2;
                avg_impressions := 1500; avg_clicks := 150;
                avg_fraud_rate := 1500; avg_quality_score := 85;
                consensus_reached := true; last_updated := 20 |});
      [exact Hadm|vm_compute; reflexivity].
  - destruct (Hre s (Scenario.C 30) 3 (snd (invoke s (Scenario.C 30))))
      as (r' & Hr' & _ & Hlast & Htot & _).
    + exact Hadm.
    + vm_compute. reflexivity.
    + left. vm_compute. discriminate.
    + exists r'. repeat split; assumption.
  - destruct (Hre (put_MinAttesters 1 s) (Scenario.C 30) 3
                (snd (invoke (put_MinAttesters 1 s) (Scenario.C 30))))
      as (r' & Hr' & _ & Hlast & Htot & _).
    + apply Hadm'.
    + vm_compute. reflexivity.
    + right.
      exists {| campaign_id := 1; total_attesters := 2;
                avg_impressions := 1500; avg_clicks := 150;
                avg_fraud_rate := 1500; avg_quality_score := 85;
                consensus_reached := true; last_updated := 20 |}.
      split; vm_compute; [reflexivity|discriminate].
    + exists r'. repeat split; assumption.
  - destruct (Hstale (put_MinAttesters 5 s) (Scenario.C 30) 3
                (snd (invoke (put_MinAttesters 5 s) (Scenario.C 30))))
      as [Hsame _].
    + apply Hadm'.
    + vm_compute. reflexivity.
    + vm_compute. reflexivity.
    + apply Hsame.
Defined.

(** C8 as stated fails: with a floor of 2, A and B submit and the consensus
    is reached; the floor is raised to 5; C then submits and its call
    returns the count 3, yet the stored record is still the one of A and B,
    written at time 20, while three attestations are stored. *)
Lemma C8_counterexample :
  let s := steps (init (Some 2))
             [Submit (Scenario.A 10); Submit (Scenario.B 20);
              SetMinAttesters 5] in
  let r := {| campaign_id := 1; total_attesters := 2;
              avg_impressions := 1500; avg_clicks := 150;
              avg_fraud_rate := 1500; avg_quality_score := 85;
              consensus_reached := true; last_updated := 20 |} in
  get_consensus s 1 = inl r
  ∧ ∃ s', invoke s (Scenario.C 30) = (Ok 3, s')
        ∧ get_consensus s' 1 = inl r
        ∧ length (stored_attestations s' 1) = 3%nat
        ∧ ¬ means_of_all_stored s' 1 r.
Proof.
  intros s r. split; [vm_compute; reflexivity|].
  eexists. split; [vm_compute; reflexivity|].
  split; [vm_compute; reflexivity|].
  split; [vm_compute; reflexivity|].
  intros (_ & _ & Htot & _). vm_compute in Htot. discriminate Htot.
Qed.

(** * The index along a run *)

Lemma invoke_index_inv s call n s' c l :
  inv s -> index_inv s c l -> invoke s call = (Ok n, s') ->
  index_inv s' c
    (if decide (call_campaign call = c)
     then attesters_after l (call_attester call) else l).
Proof.
  intros Hinv Hidx Hinvoke. destruct call as [env a c0 m].
  cbn [call_campaign call_attester].
  destruct (invoke_ok s env a c0 m n s' Hinv Hinvoke)
    as (l0 & Hidx0 & _ & _ & _ & Hw & Hs').
  assert (Hwritten : index_inv (written env a c0 m s) c
            (if decide (c0 = c) then attesters_after l a else l)).
  { destruct (decide (c0 = c)) as [->|Hne].
    - by rewrite (index_inv_unique _ _ _ _ Hidx Hidx0).
    - destruct (written_other env a c0 m s c) as (E1 & E2 & E3); [done|].
      by apply (index_inv_ext s). }
  destruct Hs' as [[_ ->]|(_ & _ & ->)]; [done|].
  by apply put_Consensus_index_inv.
Qed.

Lemma attesters_after_set l a :
  list_to_set (C := gset Address) (attesters_after l a)
  = list_to_set l ∪ {[a]}.
Proof.
  unfold attesters_after. destruct (decide (a ∈ l)) as [Hin|_].
  - assert (a ∈ list_to_set (C := gset Address) l)
      by (by apply elem_of_list_to_set).
    set_solver.
  - rewrite list_to_set_app_L. set_solver.
Qed.

Lemma run_submitters c calls : ∀ s l,
  inv s -> index_inv s c l ->
  ∃ l', index_inv (run s calls) c l'
      ∧ list_to_set (C := gset Address) l'
        = list_to_set l ∪ submitters s calls c.
Proof.
  induction calls as [|call calls IH]; intros s l Hinv Hidx.
  - exists l. split; [done|]. cbn. set_solver.
  - cbn [run foldl submitters].
    pose proof (invoke_inv s call Hinv) as Hinv'.
    destruct (invoke s call) as [[n|e] s'] eqn:Hinvoke; cbn [snd] in *.
    + pose proof (invoke_index_inv s call n s' c l Hinv Hidx Hinvoke) as Hidx'.
      destruct (IH s' _ Hinv' Hidx') as (l' & Hl' & Hset).
      exists l'. split; [exact Hl'|]. rewrite Hset.
      destruct (decide (call_campaign call = c)).
      * rewrite attesters_after_set. set_solver.
      * set_solver.
    + apply invoke_err in Hinvoke as ->.
      destruct (IH s l Hinv' Hidx) as (l' & Hl' & Hset).
      exists l'. split; [exact Hl'|]. rewrite Hset. set_solver.
Qed.

(** C3: a second call by an attester who already has an attestation for the
    campaign replaces that one attestation, leaves the attester index and
    the count as they were, and returns the unchanged count; and after every
    run from the empty contract the index of a campaign lists, at the
    contiguous positions from 0, pairwise distinct attesters, exactly those
    whose calls on the campaign returned, and the count is their number. *)
Theorem C3_resubmission_and_index_invariant :
  (∀ s call n s',
     reachable s ->
     is_Some (Attestation s !! (call_campaign call, call_attester call)) ->
     invoke s call = (Ok n, s') ->
     CampaignAttesterIndex s' = CampaignAttesterIndex s
     ∧ AttestationCount s' = AttestationCount s
     ∧ n = get_attestation_count s (call_campaign call)
     ∧ Attestation s'
       = <[(call_campaign call, call_attester call) :=
             attestation_of (call_env call) (call_attester call)
               (call_campaign call) (call_measurement call)]>
           (Attestation s)
     ∧ length (stored_attestations s' (call_campaign call))
       = length (stored_attestations s (call_campaign call)))
  ∧ (∀ min_attesters calls campaign,
     let s := run (init min_attesters) calls in
     let who := submitters (init min_attesters) calls campaign in
     ∃ l : list Address,
       NoDup l
       ∧ (∀ i : Z, CampaignAttesterIndex s !! (campaign, i)
                   = if decide (0 <= i < Z.of_nat (length l))
                     then l !! Z.to_nat i else None)
       ∧ list_to_set l = who
       ∧ get_attestation_count s campaign = Z.of_nat (length l)
       ∧ get_attestation_count s campaign = Z.of_nat (size who)).
Proof.
  split.
  - intros s [env a c m] n s'. cbn [call_env call_attester call_campaign
      call_measurement]. intros Hreach [old Hold] Hinvoke.
    pose proof (reachable_inv _ Hreach) as Hinv.
    pose proof (invoke_inv s (Build_Call env a c m) Hinv) as Hinv'.
    rewrite Hinvoke in Hinv'. cbn [snd] in Hinv'.
    destruct (invoke_ok s env a c m n s' Hinv Hinvoke)
      as (l & Hidx & _ & _ & Hlen & Hw & Hs').
    assert (Hin : a ∈ l) by (apply (inv_attested _ _ _ Hidx); eauto).
    assert (El : attesters_after l a = l)
      by (unfold attesters_after; by rewrite decide_True).
    rewrite El in *.
    assert (Ew : written env a c m s
                 = put_Attestation (c, a) (attestation_of env a c m) s)
      by (unfold written; by rewrite Hold).
    assert (Hst : ∀ s1, index_inv s1 c l ->
              length (stored_attestations s1 c) = length l).
    { intros s1 H1. rewrite <- (Permutation_length
        (stored_attestations_perm s1 c l H1)). by apply index_inv_length. }
    assert (Hs1 : index_inv s' c l).
    { destruct Hs' as [[_ ->]|(_ & _ & ->)]; [done|].
      by apply put_Consensus_index_inv. }
    rewrite (Hst s' Hs1), (Hst s Hidx).
    rewrite (inv_count _ _ _ Hidx).
    destruct Hs' as [[_ ->]|(_ & _ & ->)]; rewrite Ew; done.
  - intros min_attesters calls c s who.
    destruct (run_submitters c calls (init min_attesters) [])
      as (l & Hidx & Hset).
    { apply init_inv. }
    { apply init_index_inv. }
    exists l. fold s in Hidx. fold who in Hset.
    rewrite list_to_set_nil, (left_id_L ∅ (∪)) in Hset.
    split; [apply (inv_nodup _ _ _ Hidx)|].
    split.
    { intros i. rewrite (inv_index _ _ _ Hidx).
      destruct (decide (0 <= i)) as [Hi|Hi].
      - destruct (decide (0 <= i < Z.of_nat (length l))); [done|].
        apply lookup_ge_None_2. lia.
      - rewrite decide_False; [done|lia]. }
    split; [done|]. split; [apply (inv_count _ _ _ Hidx)|].
    rewrite <- Hset, size_list_to_set by apply (inv_nodup _ _ _ Hidx).
    apply (inv_count _ _ _ Hidx).
Qed.

Lemma C3_witness :
  let s := run (init (Some 2)) [Scenario.A 10; Scenario.B 20] in
  let again := Scenario.submit 30 "A" 1 (Scenario.measurement 7 7 7 7) in
  CampaignAttesterIndex (snd (invoke s again)) = CampaignAttesterIndex s
  ∧ AttestationCount (snd (invoke s again)) = AttestationCount s.
Proof.
  intros s again.
  destruct C3_resubmission_and_index_invariant as [Hre _].
  destruct (Hre s again 2 (snd (invoke s again))) as (Hi & Hc & _).
  - by exists (Some 2), [Scenario.A 10; Scenario.B 20].
  - vm_compute. eauto.
  - vm_compute. reflexivity.
  - split; [exact Hi|exact Hc].
Defined.

(** * Totality of the builder *)

Lemma not_exceeds_counters s c l :
  index_inv s c l ->
  ¬ sum_exceeds (stored_attestations s c) ->
  counters_fit (attestations_of s c l).
Proof.
  intros Hinv Hex.
  pose proof (stored_attestations_perm s c l Hinv) as Hperm.
  unfold sum_exceeds in Hex. rewrite <- !(total_perm _ _ _ Hperm) in Hex.
  unfold counters_fit. lia.
Qed.

(** C10, as the code has it: when the builder runs on a storage that
    satisfies the index invariant with a count of at least 1, every index
    position below the count holds an attester whose attestation is stored
    and the divisor is not zero; the builder then either returns or aborts
    with [Overflow], never on a lookup or a division, and it returns
    whenever no sum of a field exceeds the accumulator.  The storage a call
    has written when it runs the builder is such a storage, and the count it
    passes is at least 1.  This holds for every [min_attesters], 0 and 1
    included. *)
Theorem C10_builder_total_up_to_overflow :
  (∀ env s c,
     indexed s c ->
     1 <= get_attestation_count s c ->
     as_u64 (get_attestation_count s c) ≠ 0
     ∧ (∀ i, 0 <= i < get_attestation_count s c ->
          ∃ a att, CampaignAttesterIndex s !! (c, i) = Some a
                 ∧ Attestation s !! (c, a) = Some att)
     ∧ (_try_build_consensus env c (get_attestation_count s c) s
        = Err Overflow
        ∨ ∃ s2, _try_build_consensus env c (get_attestation_count s c) s
                = Ok (tt, s2))
     ∧ (¬ sum_exceeds (stored_attestations s c) ->
        ∃ s2, _try_build_consensus env c (get_attestation_count s c) s
              = Ok (tt, s2)))
  ∧ (∀ s call,
     reachable s ->
     is_authorized (call_env call) (call_attester call) = true ->
     valid_measurement (call_env call) (call_measurement call) = true ->
     count_after s (call_attester call) (call_campaign call) <= u32_MAX ->
     indexed
       (written (call_env call) (call_attester call) (call_campaign call)
          (call_measurement call) s)
       (call_campaign call)
     ∧ get_attestation_count
         (written (call_env call) (call_attester call) (call_campaign call)
            (call_measurement call) s)
         (call_campaign call)
       = count_after s (call_attester call) (call_campaign call)
     ∧ 1 <= count_after s (call_attester call) (call_campaign call)).
Proof.
  split.
  - intros env s c [l Hidx] Hpos.
    rewrite (inv_count _ _ _ Hidx) in *.
    pose proof (inv_bound _ _ _ Hidx) as Hb.
    split; [rewrite as_u64_count; lia|]. split.
    { intros i Hi. rewrite (inv_index _ _ _ Hidx), decide_True by lia.
      destruct (lookup_lt_is_Some_2 l (Z.to_nat i)) as [a' Ha']; [lia|].
      destruct (proj1 (inv_attested _ _ _ Hidx a')) as [att Hatt].
      { by apply list_elem_of_lookup_2 in Ha'. }
      eauto. }
    rewrite (try_build_spec env s c _ Hidx Hpos). unfold build_result.
    split.
    + repeat case_decide; eauto.
    + intros Hex. apply (not_exceeds_counters s c _ Hidx) in Hex.
      rewrite (decide_True _ _ Hex). case_decide; eauto.
  - intros s [env a c m]. cbn [call_env call_attester call_campaign
      call_measurement]. intros Hreach Hauth Hvalid Hle.
    apply reachable_inv in Hreach.
    destruct (Hreach c) as (l & Hidx & _).
    pose proof (count_after_length s c l a Hidx) as Hlen.
    assert (Hw : index_inv (written env a c m s) c (attesters_after l a))
      by (apply written_index_inv; [done|done|lia]).
    split; [by exists (attesters_after l a)|].
    rewrite (inv_count _ _ _ Hw), Hlen.
    split; [done|apply attesters_after_pos].
Qed.

Lemma C10_witness :
  let s := run (init (Some 0)) [Scenario.A 10; Scenario.B 20] in
  (∃ s2, _try_build_consensus (Scenario.env 30) 1 2 s = Ok (tt, s2))
  ∧ 1 <= count_after s "C" 1.
Proof.
  intros s.
  destruct C10_builder_total_up_to_overflow as [Htotal Hcall].
  assert (Hreach : reachable s)
    by (by exists (Some 0), [Scenario.A 10; Scenario.B 20]).
  split.
  - destruct (Htotal (Scenario.env 30) s 1) as (_ & _ & _ & Hreturns).
    + destruct (reachable_inv s Hreach 1) as (l & Hl & _). by exists l.
    + vm_compute. discriminate.
    + apply Hreturns. vm_compute. intros [H|[H|[H|H]]]; discriminate H.
  - destruct (Hcall s (Scenario.C 30)) as (_ & _ & Hpos).
    + exact Hreach.
    + reflexivity.
    + reflexivity.
    + vm_compute. discriminate.
    + exact Hpos.
Defined.

(** C10 as stated fails: with the degenerate floor [min_attesters = 1] and
    the index invariant in force, the builder run by the second of two huge
    reports aborts. *)
Lemma C10_counterexample :
  let s := run (init (Some 1)) [Scenario.huge 10 "A"] in
  let s1 := written (Scenario.env 20) "B" 1
              (Scenario.measurement (2 ^ 63) 1 0 0) s in
  get_attestation_count s1 1 = 2
  ∧ (∀ i, 0 <= i < 2 ->
       ∃ a att, CampaignAttesterIndex s1 !! (1, i) = Some a
              ∧ Attestation s1 !! (1, a) = Some att)
  ∧ ¬ (∃ s2, _try_build_consensus (Scenario.env 20) 1 2 s1 = Ok (tt, s2))
  ∧ _try_build_consensus (Scenario.env 20) 1 2 s1 = Err Overflow.
Proof.
  intros s s1. split; [by vm_compute|]. split.
  - intros i Hi. assert (i = 0 ∨ i = 1) as [-> | ->] by lia.
    + exists "A". eexists. split; vm_compute; reflexivity.
    + exists "B". eexists. split; vm_compute; reflexivity.
  - assert (E : _try_build_consensus (Scenario.env 20) 1 2 s1 = Err Overflow)
      by (vm_compute; reflexivity).
    split; [|exact E]. intros [s2 H]. rewrite E in H. discriminate H.
Qed.

(** * Dilution of an outlier *)

(** The truncated mean [q] of [m] reports of sum [T], all within [d] of
    [X], and of one report [Y] farther than [d] from [X]. *)
Lemma truncated_mean_of_outlier m X d Y T q :
  1 <= m -> 0 <= d -> 0 <= T + Y ->
  m * (X - d) <= T <= m * (X + d) ->
  d < Z.abs (Y - X) ->
  q = (T + Y) ÷ (m + 1) ->
  Z.abs (q - X) <= Z.abs (Y - X)
  ∧ (T ≠ m * (Y + 1) -> Z.abs (q - X) < Z.abs (Y - X))
  ∧ (T = m * (Y + 1) ↔ q = Y)
  ∧ (m + 1) * Z.abs (q - X) < Z.abs (Y - X) + m * d + (m + 1)
  ∧ Z.abs (m * (m + 1) * q - (m + 1) * T) < Z.abs (m * Y - T) + m * (m + 1).
Proof.
  intros Hm Hd Hpos [Hlo Hhi] Hout ->.
  rewrite Z.quot_div_nonneg by lia.
  pose proof (Z.div_mod (T + Y) (m + 1) ltac:(lia)) as Hdm.
  pose proof (Z.mod_pos_bound (T + Y) (m + 1) ltac:(lia)) as Hr.
  set (q := (T + Y) / (m + 1)) in *.
  set (r := (T + Y) mod (m + 1)) in *.
  clearbody q r.
  assert (E : (m + 1) * (q - X) = (T - m * X) + (Y - X) - r) by lia.
  assert (Hmr : 0 <= m * r <= m * m) by nia.
  assert (Elast : m * (m + 1) * q - (m + 1) * T = m * Y - T - m * r).
  { replace (m * (m + 1) * q) with (m * ((m + 1) * q)) by ring.
    replace ((m + 1) * q) with (T + Y - r) by lia. ring. }
  rewrite Elast.
  assert (Hsplit : d < Y - X ∨ d < X - Y) by lia.
  destruct Hsplit as [Hup|Hdown].
  - assert (Hmu : m <= m * (Y - X - d)) by nia.
    assert (Ht1 : q - X < Y - X) by nia.
    assert (Ht2 : - (Y - X) < q - X) by nia.
    split; [lia|]. split; [lia|]. split; [split; [nia|lia]|].
    split; [|lia].
    rewrite (Z.abs_eq (Y - X)) by lia.
    destruct (Z.abs_spec (q - X)) as [[? ->]|[? ->]]; nia.
  - assert (Hmv : m <= m * (X - Y - d)) by nia.
    assert (Ht1 : q - X < X - Y) by nia.
    assert (Ht2 : Y <= q) by nia.
    assert (Hstrict : T ≠ m * (Y + 1) -> Y < q) by (intros; nia).
    assert (Hyes : T = m * (Y + 1) -> q = Y) by (intros; nia).
    split; [lia|]. split; [intros H; apply Hstrict in H; lia|].
    split; [split; [exact Hyes|]|].
    { intros Hq. destruct (Z.eq_dec T (m * (Y + 1))) as [|Hne]; [assumption|].
      apply Hstrict in Hne. lia. }
    split; [|lia].
    rewrite (Z.abs_neq (Y - X)) by lia.
    destruct (Z.abs_spec (q - X)) as [[? ->]|[? ->]]; nia.
Qed.

Lemma total_constant {A} (f : A -> Z) X atts :
  Forall (fun a => f a = X) atts -> total f atts = Z.of_nat (length atts) * X.
Proof.
  induction 1 as [|a atts Ha _ IH]; [by rewrite total_nil|].
  rewrite total_cons, IH, Ha. simpl length. lia.
Qed.

(** Reports that are all at least [lo] and sum to [lo] each are all [lo]. *)
Lemma total_least {A} (f : A -> Z) lo atts :
  Forall (fun a => lo <= f a) atts ->
  total f atts = Z.of_nat (length atts) * lo ->
  Forall (fun a => f a = lo) atts.
Proof.
  induction 1 as [|a atts Ha Hall IH]; [constructor|].
  rewrite total_cons. simpl length. intros E.
  assert (Hlow : Z.of_nat (length atts) * lo <= total f atts).
  { clear IH E. induction Hall as [|b atts Hb _ IH];
      [rewrite total_nil; simpl; lia|].
    rewrite total_cons. simpl length. lia. }
  constructor; [lia|]. apply IH. lia.
Qed.

Lemma lone_outlier_mean {A} (f : A -> Z) X d y others atts :
  (∀ a, a ∈ atts -> 0 <= f a) ->
  lone_outlier f X d y others atts ->
  diluted f X d y others (mean f atts).
Proof.
  intros Hpos (Hperm & Hne & Hnear & Hout).
  assert (Hm : 1 <= Z.of_nat (length others))
    by (destruct others; [done|simpl length; lia]).
  assert (Hd : 0 <= d).
  { destruct others as [|a ?]; [done|].
    apply Forall_cons in Hnear as [H _]. lia. }
  assert (Hy : 0 <= f y) by (apply Hpos; rewrite Hperm; left).
  assert (HT : 0 <= total f others).
  { apply total_nonneg, Forall_forall. intros a Ha. apply Hpos.
    rewrite Hperm. by right. }
  assert (Hband : Z.of_nat (length others) * (X - d) <= total f others
                  <= Z.of_nat (length others) * (X + d)).
  { destruct (total_bounds f (X - d) (X + d) others); [|lia].
    eapply Forall_impl; [exact Hnear|]. cbn. intros a Ha. lia. }
  assert (Hmean : mean f atts
                  = (total f others + f y) ÷ (Z.of_nat (length others) + 1)).
  { unfold mean.
    rewrite (total_perm _ _ _ Hperm), (Permutation_length Hperm), total_cons.
    simpl length. f_equal; lia. }
  destruct (truncated_mean_of_outlier (Z.of_nat (length others)) X d (f y)
              (total f others) (mean f atts) Hm Hd ltac:(lia) Hband Hout Hmean)
    as (H1 & H2 & H3 & H4 & H5).
  assert (Honto : Forall (fun a => f a = f y + 1) others
                  ↔ total f others = Z.of_nat (length others) * (f y + 1)).
  { split; [apply total_constant|]. intros E. apply total_least; [|exact E].
    destruct (Z.abs_spec (f y - X)) as [[? Habs]|[? Habs]];
      rewrite Habs in Hout.
    - exfalso. nia.
    - eapply Forall_impl; [exact Hnear|]. cbn. intros a Ha. lia. }
  unfold diluted. cbv zeta.
  replace (Z.of_nat (length others) + 1 - 1)
    with (Z.of_nat (length others)) by lia.
  split; [exact H1|]. split; [intros Hn; apply H2; by rewrite <- Honto|].
  split; [by rewrite Honto|]. split; [exact H4|exact H5].
Qed.

Lemma stored_attestations_wf s c att :
  indexed s c -> att ∈ stored_attestations s c ->
  ∃ a, wf_attestation c a att.
Proof.
  intros [l Hidx] [a Ha]%elem_of_stored_attestations. exists a.
  by apply (inv_wf _ _ _ Hidx).
Qed.

Lemma diluted_of_means s c r :
  indexed s c -> means_of_all_stored s c r -> outlier_diluted s c r.
Proof.
  intros Hidx (_ & _ & _ & _ & Hi & Hc & Hf & Hq).
  assert (Hwf : ∀ att, att ∈ stored_attestations s c ->
                  ∃ a, wf_attestation c a att)
    by (intros att; by apply stored_attestations_wf).
  unfold outlier_diluted. rewrite Hi, Hc, Hf, Hq.
  split; [|split; [|split]];
    intros X d y others Hout; apply lone_outlier_mean; try done;
    intros att [a Ha]%Hwf; unfold wf_attestation in Ha; lia.
Qed.

(** C5, as the code has it: when all attesters of a campaign but one report
    values near [X] in a field, each within [d] of it, and the one reports
    an outlier [Y] farther than [d] from [X], the truncated average [avg] of
    that field is at most as far from [X] as [Y] is, and strictly closer
    unless every other attester reports [Y + 1]: there, and only there,
    truncation makes the average [Y] itself.  The average leaves the exact
    mean of the other reports by less than the [n]-th part of the outlier's
    distance from that mean plus one, the unit truncation may drop.  This
    holds of the record the builder writes at quorum, and of the record
    every submission leaves that returns with the count at or above the
    floor then in force. *)
Theorem C5_outlier_is_diluted :
  (∀ env s campaign s',
     indexed s campaign ->
     1 <= get_attestation_count s campaign ->
     default 3 (MinAttesters s) <= get_attestation_count s campaign ->
     _try_build_consensus env campaign (get_attestation_count s campaign) s
     = Ok (tt, s') ->
     ∃ r, get_consensus s' campaign = inl r ∧ outlier_diluted s' campaign r)
  ∧ (∀ s call n s',
     administered s ->
     invoke s call = (Ok n, s') ->
     default 3 (MinAttesters s) <= n ->
     ∃ r, get_consensus s' (call_campaign call) = inl r
        ∧ outlier_diluted s' (call_campaign call) r).
Proof.
  split.
  - intros env s c s' Hidx Hpos Hmin Hbuild.
    destruct (build_at_quorum env s c s' Hidx Hpos Hmin Hbuild)
      as (l & Hl & _ & ->).
    exists (consensus_of c (ledger_timestamp env) (attestations_of s c l)).
    split; [apply get_consensus_Some; cbn; by rewrite lookup_insert_eq|].
    rewrite (inv_count _ _ _ Hl) in Hpos.
    apply (diluted_of_means s c); [done|].
    by apply (consensus_of_stored s c l).
  - intros s call n s' Hadm Hinvoke Hmin.
    destruct (invoke_recomputes s call n s'
                (administered_records_inv s Hadm) Hinvoke Hmin)
      as (r & Hr & _ & _ & _ & Hidx & Hall).
    exists r. split; [exact Hr|]. by apply diluted_of_means.
Qed.

(** The scenario of the test [test_last_attester_does_not_override_consensus]:
    two attesters report about 1000 impressions, the third reports 9000, and
    the average 3700 is 2700 off 1000 where the outlier is 8000 off. *)
Lemma C5_witness :
  let near1 := Scenario.submit 10 "A" 1 (Scenario.measurement 1000 100 500 80) in
  let near2 := Scenario.submit 20 "B" 1 (Scenario.measurement 1100 110 600 85) in
  let far := Scenario.submit 30 "C" 1 (Scenario.measurement 9000 900 5000 10) in
  let s := run (init (Some 3)) [near1; near2] in
  (∃ s' r, invoke s far = (Ok 3, s')
         ∧ get_consensus s' 1 = inl r
         ∧ avg_impressions r = 3700
         ∧ Z.abs (avg_impressions r - 1000) < Z.abs (9000 - 1000))
  ∧ (∃ s' r, _try_build_consensus (Scenario.env 40) 1 3 (snd (invoke s far))
             = Ok (tt, s')
           ∧ get_consensus s' 1 = inl r
           ∧ outlier_diluted s' 1 r).
Proof.
  intros near1 near2 far s.
  assert (Hreach : reachable s) by (by eexists (Some 3), _).
  destruct C5_outlier_is_diluted as [Hbuilt Hstored].
  set (s3 := snd (invoke s far)).
  assert (Hinvoke : invoke s far = (Ok 3, s3)) by (vm_compute; reflexivity).
  split.
  - destruct (Hstored s far 3 s3) as (r & Hr & Hdil).
    + by apply reachable_administered.
    + exact Hinvoke.
    + vm_compute. discriminate.
    + exists s3, r. split; [exact Hinvoke|]. split; [exact Hr|].
      assert (E : avg_impressions r = 3700).
      { revert Hr. vm_compute. by intros [= <-]. }
      split; [exact E|].
      destruct Hdil as (Hi & _).
      destruct (Hi 1000 100 (attestation_of_call far)
                  [attestation_of_call near1; attestation_of_call near2])
        as (_ & Hstrict & _).
      * split; [vm_compute; reflexivity|]. split; [done|].
        split; [|vm_compute; reflexivity].
        repeat constructor; vm_compute; discriminate.
      * apply Hstrict. intros H. apply Forall_cons in H as [H _].
        vm_compute in H. discriminate H.
  - set (r := {| campaign_id := 1; total_attesters := 3;
                 avg_impressions := 3700; avg_clicks := 370;
                 avg_fraud_rate := 2033; avg_quality_score := 58;
                 consensus_reached := true; last_updated := 40 |}).
    assert (Hrun : _try_build_consensus (Scenario.env 40) 1 3 s3
                   = Ok (tt, put_Consensus 1 r s3))
      by (vm_compute; reflexivity).
    destruct (Hbuilt (Scenario.env 40) s3 1 (put_Consensus 1 r s3))
      as (r' & Hr' & Hall).
    + destruct (reachable_inv s3 (reachable_invoke s far Hreach) 1)
        as (l & Hl & _). by exists l.
    + vm_compute. discriminate.
    + vm_compute. discriminate.
    + exact Hrun.
    + exists (put_Consensus 1 r s3), r'. split; [exact Hrun|]. by split.
Defined.

(** C5 as stated fails: two attesters report 10, the third reports 9, and
    the truncated average is 9, the outlier's own value, as far from 10 as
    the outlier is. *)
Lemma C5_counterexample :
  let s := run (init (Some 3))
             [Scenario.flat 10 "A" 10; Scenario.flat 20 "B" 10;
              Scenario.flat 30 "C" 9] in
  ∃ r, get_consensus s 1 = inl r
     ∧ lone_outlier impressions_verified 10 0
         (attestation_of_call (Scenario.flat 30 "C" 9))
         [attestation_of_call (Scenario.flat 10 "A" 10);
          attestation_of_call (Scenario.flat 20 "B" 10)]
         (stored_attestations s 1)
     ∧ avg_impressions r = 9
     ∧ ¬ (Z.abs (avg_impressions r - 10) < Z.abs (9 - 10)).
Proof.
  intros s.
  exists {| campaign_id := 1; total_attesters := 3;
            avg_impressions := 9; avg_clicks := 9;
            avg_fraud_rate := 9; avg_quality_score := 9;
            consensus_reached := true; last_updated := 30 |}.
  split; [vm_compute; reflexivity|]. split; [|split; [reflexivity|]].
  - split; [vm_compute; reflexivity|]. split; [done|].
    split; [|vm_compute; reflexivity].
    repeat constructor; vm_compute; discriminate.
  - cbn. lia.
Qed.

(** * Runs of first submissions *)

Lemma written_Attestation env a c m s :
  Attestation (written env a c m s)
  = <[(c, a) := attestation_of env a c m]> (Attestation s).
Proof. unfold written. by destruct (Attestation s !! (c, a)). Qed.

Lemma invoke_Attestation s env a c m n s' :
  inv s ->
  invoke s (Build_Call env a c m) = (Ok n, s') ->
  Attestation s' = <[(c, a) := attestation_of env a c m]> (Attestation s)
  ∧ MinAttesters s' = MinAttesters s.
Proof.
  intros Hinv Hinvoke.
  destruct (invoke_ok s env a c m n s' Hinv Hinvoke)
    as (l & _ & _ & _ & _ & _ & [[_ ->]|(_ & _ & ->)]);
    cbn [Attestation MinAttesters put_Consensus];
    rewrite written_Attestation; by destruct (written_config env a c m s).
Qed.

Lemma invoke_MinAttesters s call :
  inv s -> MinAttesters (snd (invoke s call)) = MinAttesters s.
Proof.
  intros Hinv. destruct (invoke s call) as [[n|e] s'] eqn:Hinvoke.
  - destruct call as [env a c m].
    by destruct (invoke_Attestation s env a c m n s' Hinv Hinvoke).
  - by apply invoke_err in Hinvoke as ->.
Qed.

Lemma run_MinAttesters calls : ∀ s,
  inv s -> MinAttesters (run s calls) = MinAttesters s.
Proof.
  induction calls as [|call calls IH]; intros s Hinv; [done|].
  cbn [run foldl]. fold (run (snd (invoke s call)) calls).
  rewrite IH by (by apply invoke_inv). by apply invoke_MinAttesters.
Qed.

Lemma omap_ext_in {A B} (f g : A -> option B) (l : list A) :
  (∀ a, a ∈ l -> f a = g a) -> omap f l = omap g l.
Proof.
  induction l as [|a l IH]; intros H; [done|].
  cbn. rewrite (H a) by left. rewrite IH; [done|].
  intros a' Ha'. apply H. by right.
Qed.

Lemma run_first_submissions c calls : ∀ s l,
  inv s -> index_inv s c l ->
  Forall (fun call => call_campaign call = c) calls ->
  NoDup (l ++ (call_attester <$> calls)) ->
  all_return s calls ->
  index_inv (run s calls) c (l ++ (call_attester <$> calls))
  ∧ attestations_of (run s calls) c (l ++ (call_attester <$> calls))
    = attestations_of s c l ++ (attestation_of_call <$> calls).
Proof.
  induction calls as [|call calls IH]; intros s l Hinv Hidx Hc Hnd Hret.
  - cbn. by rewrite !app_nil_r.
  - apply Forall_cons in Hc as [Hc Hcs]. destruct Hret as [[n Hn] Hret].
    cbn [run foldl]. fold (run (snd (invoke s call)) calls).
    pose proof (invoke_inv s call Hinv) as Hinv'.
    destruct (invoke s call) as [res s1] eqn:Hinvoke. cbn [fst snd] in *.
    subst res. destruct call as [env a c0 m]. cbn [call_campaign] in Hc.
    subst c0. rewrite fmap_cons in *. cbn [call_attester] in *.
    assert (Hnot : a ∉ l).
    { apply NoDup_app in Hnd as (_ & Hdisj & _). intros Hin.
      apply (Hdisj a Hin). left. }
    pose proof (invoke_index_inv s _ n s1 c l Hinv Hidx Hinvoke) as Hidx1.
    cbn [call_campaign call_attester] in Hidx1.
    rewrite decide_True in Hidx1 by done.
    unfold attesters_after in Hidx1. rewrite decide_False in Hidx1 by done.
    destruct (invoke_Attestation s env a c m n s1 Hinv Hinvoke) as [Eatt _].
    destruct (IH s1 (l ++ [a]) Hinv' Hidx1 Hcs) as [IH1 IH2].
    { by rewrite <- app_assoc. }
    { done. }
    rewrite <- app_assoc in IH1, IH2. cbn [app] in IH1, IH2.
    split; [exact IH1|]. rewrite IH2.
    unfold attestations_of at 1. rewrite omap_app, Eatt.
    cbn [omap list_omap]. rewrite lookup_insert_eq.
    rewrite <- app_assoc, fmap_cons. cbn [app]. f_equal.
    apply omap_ext_in. intros a' Ha'.
    rewrite lookup_insert_ne; [done|]. intros [= ->]. done.
Qed.

Lemma total_fmap {A B} (f : B -> Z) (g : A -> B) l :
  total f (g <$> l) = total (f ∘ g) l.
Proof.
  induction l as [|a l IH]; [done|].
  rewrite fmap_cons, !total_cons, IH. done.
Qed.

Lemma mean_fmap {A B} (f : B -> Z) (g : A -> B) l :
  mean f (g <$> l) = mean (f ∘ g) l.
Proof. unfold mean. by rewrite total_fmap, length_fmap. Qed.

(** The consensus after a run of first submissions from the empty contract
    is a function of the reported values. *)
Lemma run_first_consensus min_attesters c calls :
  Forall (fun call => call_campaign call = c) calls ->
  NoDup (call_attester <$> calls) ->
  all_return (init min_attesters) calls ->
  1 <= Z.of_nat (length calls) ->
  default 3 min_attesters <= Z.of_nat (length calls) ->
  ∃ r, get_consensus (run (init min_attesters) calls) c = inl r
     ∧ total_attesters r = Z.of_nat (length calls)
     ∧ avg_impressions r = mean (m_impressions ∘ snd) (report <$> calls)
     ∧ avg_clicks r = mean (m_clicks ∘ snd) (report <$> calls)
     ∧ avg_fraud_rate r = mean (m_fraud_rate ∘ snd) (report <$> calls)
     ∧ avg_quality_score r = mean (m_quality_score ∘ snd) (report <$> calls).
Proof.
  intros Hc Hnd Hret Hpos Hmin.
  destruct (run_first_submissions c calls (init min_attesters) [])
    as [Hidx Hatts]; try done.
  { apply init_inv. }
  { apply init_index_inv. }
  change (attestations_of (init min_attesters) c [])
    with (@nil PerformanceAttestation) in Hatts.
  cbn [app] in Hidx, Hatts.
  pose proof (run_inv calls _ (init_inv min_attesters)) as Hinv.
  destruct (Hinv c) as (l & Hidx' & Hsome & Hnone).
  rewrite (index_inv_unique _ _ _ _ Hidx' Hidx) in Hsome, Hnone.
  rewrite Hatts in Hsome.
  rewrite run_MinAttesters in Hnone by apply init_inv.
  rewrite length_fmap in Hnone. cbn [MinAttesters init] in Hnone.
  destruct (Consensus (run (init min_attesters) calls) !! c) as [r|] eqn:Hr.
  - destruct (Hsome r eq_refl) as (_ & _ & Er).
    exists r. rewrite get_consensus_Some. split; [done|].
    rewrite Er. cbn [total_attesters avg_impressions avg_clicks
      avg_fraud_rate avg_quality_score consensus_of].
    rewrite !mean_fmap, !length_fmap. done.
  - exfalso. destruct (Hnone eq_refl) as [?|E]; [lia|].
    apply fmap_nil_inv in E. subst calls. simpl in Hpos. lia.
Qed.

Lemma attestations_of_insert_new s s1 c l a att :
  Attestation s1 = <[(c, a) := att]> (Attestation s) -> a ∉ l ->
  attestations_of s1 c (l ++ [a]) = attestations_of s c l ++ [att].
Proof.
  intros E Hnot. unfold attestations_of. rewrite omap_app, E.
  cbn [omap list_omap]. rewrite lookup_insert_eq. f_equal.
  apply omap_ext_in. intros a' Ha'.
  rewrite lookup_insert_ne; [done|]. intros [= ->]. done.
Qed.

Lemma admissible_nonneg c calls :
  Forall (admissible c) calls ->
  0 <= total impressions_verified (attestation_of_call <$> calls)
  ∧ 0 <= total clicks_verified (attestation_of_call <$> calls).
Proof.
  induction 1 as [|call calls (_ & _ & Hv) _ [IH1 IH2]];
    [rewrite fmap_nil, !total_nil; lia|].
  rewrite fmap_cons, !total_cons.
  pose proof (valid_measurement_wf (call_env call) (call_attester call)
                (call_campaign call) _ Hv) as Hw.
  unfold wf_attestation in Hw. unfold attestation_of_call at 1 3. lia.
Qed.

(** First submissions whose values fit the accumulator all return. *)
Lemma first_submissions_return c calls : ∀ s l,
  inv s -> index_inv s c l ->
  Forall (admissible c) calls ->
  NoDup (l ++ (call_attester <$> calls)) ->
  Z.of_nat (length l + length calls) <= u32_MAX ->
  counters_fit (attestations_of s c l ++ (attestation_of_call <$> calls)) ->
  all_return s calls.
Proof.
  induction calls as [|call calls IH]; intros s l Hinv Hidx Hadm Hnd Hlen Hfit;
    [done|].
  apply Forall_cons in Hadm as [(Hc & Hauth & Hvalid) Hadm].
  pose proof (admissible_nonneg c calls Hadm) as [Hn1 Hn2].
  destruct call as [env a c0 m]. cbn [call_campaign call_env call_attester
    call_measurement] in *. subst c0. rewrite fmap_cons in *.
  cbn [call_attester length] in *.
  assert (Hnot : a ∉ l).
  { apply NoDup_app in Hnd as (_ & Hdisj & _). intros Hin.
    apply (Hdisj a Hin). left. }
  assert (El : attesters_after l a = l ++ [a])
    by (unfold attesters_after; by rewrite decide_False).
  assert (Hlen1 : Z.of_nat (length (l ++ [a])) <= u32_MAX)
    by (rewrite length_app; simpl; lia).
  assert (Hw : index_inv (written env a c m s) c (l ++ [a])).
  { rewrite <- El. apply written_index_inv; [done|done|].
    rewrite (count_after_length s c l a Hidx), El. done. }
  assert (Eatt : attestations_of (written env a c m s) c (l ++ [a])
                 = attestations_of s c l ++ [attestation_of env a c m])
    by (apply attestations_of_insert_new; [apply written_Attestation|done]).
  assert (Hfit1 : counters_fit (attestations_of s c l
                                ++ [attestation_of env a c m])).
  { unfold counters_fit in *.
    rewrite !total_app, fmap_cons, !total_cons in Hfit.
    change (attestation_of_call (Build_Call env a c m))
      with (attestation_of env a c m) in Hfit.
    rewrite !total_app, !total_cons, !total_nil. lia. }
  assert (Hok : ∃ n s1, invoke s (Build_Call env a c m) = (Ok n, s1)).
  { unfold invoke. cbn [call_campaign call_env call_attester
      call_measurement].
    rewrite (submit_spec env a c m s l) by done. rewrite El.
    rewrite decide_True by done. unfold build_result. rewrite Eatt.
    rewrite (decide_True _ _ Hfit1). case_decide; eauto. }
  destruct Hok as (n & s1 & Hinvoke).
  cbn [all_return]. rewrite Hinvoke. cbn [fst snd]. split; [eauto|].
  pose proof (invoke_inv s (Build_Call env a c m) Hinv) as Hinv'.
  rewrite Hinvoke in Hinv'.
  pose proof (invoke_index_inv s _ n s1 c l Hinv Hidx Hinvoke) as Hidx1.
  cbn [call_campaign call_attester] in Hidx1.
  rewrite decide_True, El in Hidx1 by done.
  destruct (invoke_Attestation s env a c m n s1 Hinv Hinvoke) as [E1 _].
  apply (IH s1 (l ++ [a])); try done.
  - by rewrite <- app_assoc.
  - rewrite length_app. simpl. lia.
  - rewrite (attestations_of_insert_new s s1 c l a _ E1 Hnot).
    rewrite fmap_cons in Hfit. by rewrite <- app_assoc.
Qed.

(** C4: when the same attesters, pairwise distinct, make their first
    submissions for a campaign with the same values in two different orders
    (at whatever ledger times), and they are at least [min_attesters], the
    two final consensus records have the same [total_attesters] and the same
    four averages, which are the truncated means of the reported values.
    The submissions all return, in any order, when the attesters are
    authorized, the values are in range, and the two counters sum up within
    the accumulator. *)
Theorem C4_order_independence :
  (∀ min_attesters c calls1 calls2,
     Forall (fun call => call_campaign call = c) calls1 ->
     Forall (fun call => call_campaign call = c) calls2 ->
     NoDup (call_attester <$> calls1) ->
     report <$> calls1 ≡ₚ report <$> calls2 ->
     all_return (init min_attesters) calls1 ->
     all_return (init min_attesters) calls2 ->
     1 <= Z.of_nat (length calls1) ->
     default 3 min_attesters <= Z.of_nat (length calls1) ->
     ∃ r1 r2,
       get_consensus (run (init min_attesters) calls1) c = inl r1
       ∧ get_consensus (run (init min_attesters) calls2) c = inl r2
       ∧ total_attesters r1 = Z.of_nat (length calls1)
       ∧ total_attesters r2 = total_attesters r1
       ∧ avg_impressions r2 = avg_impressions r1
       ∧ avg_clicks r2 = avg_clicks r1
       ∧ avg_fraud_rate r2 = avg_fraud_rate r1
       ∧ avg_quality_score r2 = avg_quality_score r1
       ∧ avg_impressions r1 = mean (m_impressions ∘ snd) (report <$> calls1)
       ∧ avg_clicks r1 = mean (m_clicks ∘ snd) (report <$> calls1)
       ∧ avg_fraud_rate r1 = mean (m_fraud_rate ∘ snd) (report <$> calls1)
       ∧ avg_quality_score r1
         = mean (m_quality_score ∘ snd) (report <$> calls1))
  ∧ (∀ min_attesters c calls,
     Forall (admissible c) calls ->
     NoDup (call_attester <$> calls) ->
     Z.of_nat (length calls) <= u32_MAX ->
     total (m_impressions ∘ snd) (report <$> calls) <= u64_MAX ->
     total (m_clicks ∘ snd) (report <$> calls) <= u64_MAX ->
     all_return (init min_attesters) calls).
Proof.
  split.
  - intros min_attesters c calls1 calls2 Hc1 Hc2 Hnd Hperm Hret1 Hret2
      Hpos Hmin.
    assert (Hlen : length calls2 = length calls1).
    { apply Permutation_length in Hperm. by rewrite !length_fmap in Hperm. }
    assert (Hnd2 : NoDup (call_attester <$> calls2)).
    { assert (E : ∀ calls, call_attester <$> calls = fst <$> (report <$> calls))
        by (intros calls; by rewrite <- list_fmap_compose).
      rewrite E in *. by rewrite <- Hperm. }
    destruct (run_first_consensus min_attesters c calls1)
      as (r1 & Hr1 & Ht1 & Hi1 & Hk1 & Hf1 & Hq1); try done.
    destruct (run_first_consensus min_attesters c calls2)
      as (r2 & Hr2 & Ht2 & Hi2 & Hk2 & Hf2 & Hq2); try done; try lia.
    exists r1, r2. rewrite Hi2, Hk2, Hf2, Hq2, Ht2, Hlen.
    rewrite <- !(mean_perm _ _ _ Hperm).
    repeat split; congruence.
  - intros min_attesters c calls Hadm Hnd Hlen Hi Hk.
    apply (first_submissions_return c calls (init min_attesters) []);
      try done.
    + apply init_inv.
    + apply init_index_inv.
    + change (attestations_of (init min_attesters) c [])
        with (@nil PerformanceAttestation). cbn [app].
      unfold counters_fit. rewrite !total_fmap in *. done.
Qed.

Lemma C4_witness :
  let first := [Scenario.A 10; Scenario.B 20; Scenario.C 30] in
  let second := [Scenario.C 5; Scenario.A 6; Scenario.B 7] in
  ∃ r1 r2,
    get_consensus (run (init (Some 2)) first) 1 = inl r1
    ∧ get_consensus (run (init (Some 2)) second) 1 = inl r2
    ∧ avg_impressions r2 = avg_impressions r1
    ∧ avg_quality_score r2 = avg_quality_score r1.
Proof.
  intros first second.
  destruct C4_order_independence as [Hsame Hreturn].
  assert (Hadm : ∀ calls, calls = first ∨ calls = second ->
            Forall (admissible 1) calls)
    by (intros calls [-> | ->]; by repeat constructor).
  assert (Hret : ∀ calls, calls = first ∨ calls = second ->
            all_return (init (Some 2)) calls).
  { intros calls Hcalls. apply (Hreturn (Some 2) 1 calls).
    - by apply Hadm.
    - destruct Hcalls as [-> | ->];
        apply (bool_decide_unpack _); vm_compute; exact I.
    - destruct Hcalls as [-> | ->]; vm_compute; discriminate.
    - destruct Hcalls as [-> | ->]; vm_compute; discriminate.
    - destruct Hcalls as [-> | ->]; vm_compute; discriminate. }
  destruct (Hsame (Some 2) 1 first second)
    as (r1 & r2 & H1 & H2 & _ & _ & Hi & _ & _ & Hq & _).
  - by repeat constructor.
  - by repeat constructor.
  - apply (bool_decide_unpack _). vm_compute. exact I.
  - symmetry.
    apply (Permutation_cons_append
             [report (Scenario.A 10); report (Scenario.B 20)]
             (report (Scenario.C 30))).
  - apply Hret. by left.
  - apply Hret. by right.
  - done.
  - done.
  - exists r1, r2. repeat split; assumption.
Defined.

(** * The builder on an arbitrary storage *)

Lemma accumulate_ext c i acc s1 s2 :
  CampaignAttesterIndex s1 !! (c, i) = CampaignAttesterIndex s2 !! (c, i) ->
  (∀ a, Attestation s1 !! (c, a) = Attestation s2 !! (c, a)) ->
  ∃ w, accumulate c i acc s1 = lift w s1 ∧ accumulate c i acc s2 = lift w s2.
Proof.
  intros Hidx Hatt. unfold accumulate. unfold_monad. rewrite Hidx.
  destruct (CampaignAttesterIndex s2 !! (c, i)) as [a|];
    [|by exists (Err (ExpectFailed "attester index not found"))].
  rewrite Hatt.
  destruct (Attestation s2 !! (c, a)) as [att|];
    [|by exists (Err (ExpectFailed "attestation not found"))].
  unfold add_u64. unfold_monad.
  repeat (match goal with
          | |- context [if ?x <=? ?y then _ else _] =>
              destruct (x <=? y)
          end; [|by exists (Err Overflow)]).
  by eexists (Ok _).
Qed.

Lemma sum_loop_ext c s1 s2 : ∀ k i acc,
  (∀ j, i <= j < i + Z.of_nat k ->
     CampaignAttesterIndex s1 !! (c, j) = CampaignAttesterIndex s2 !! (c, j)) ->
  (∀ a, Attestation s1 !! (c, a) = Attestation s2 !! (c, a)) ->
  ∃ w, sum_loop k c i acc s1 = lift w s1 ∧ sum_loop k c i acc s2 = lift w s2.
Proof.
  induction k as [|k IH]; intros i acc Hidx Hatt.
  - by exists (Ok acc).
  - cbn [sum_loop]. unfold bind.
    destruct (accumulate_ext c i acc s1 s2) as (w & -> & ->);
      [apply Hidx; lia|done|].
    destruct w as [acc'|e]; cbn [lift]; [|by exists (Err e)].
    apply IH; [|done]. intros j Hj. apply Hidx. lia.
Qed.

(** The outcome of the builder is a function of what it reads. *)
Lemma try_build_outcome env c n s1 s2 :
  same_inputs c n s1 s2 ->
  ∃ w, _try_build_consensus env c n s1 = apply_outcome c w s1
     ∧ _try_build_consensus env c n s2 = apply_outcome c w s2
     ∧ match w with
       | Ok None => n < default 3 (MinAttesters s1)
       | Ok (Some r) =>
           default 3 (MinAttesters s1) <= n
           ∧ campaign_id r = c ∧ total_attesters r = n
           ∧ consensus_reached r = true
           ∧ last_updated r = ledger_timestamp env
       | Err _ => default 3 (MinAttesters s1) <= n
       end.
Proof.
  intros (Hmin & Hidx & Hatt).
  unfold _try_build_consensus. unfold_monad. rewrite <- Hmin.
  destruct (Z.ltb_spec n (default 3 (MinAttesters s1))) as [Hlt|Hge];
    [by exists (Ok None)|].
  destruct (sum_loop_ext c s1 s2 (Z.to_nat n) 0 zero_sums) as (w & -> & ->);
    [intros j Hj; apply Hidx; lia|done|].
  destruct w as [sums|e]; cbn [lift]; [|by exists (Err e)].
  unfold div_u64. unfold_monad.
  destruct (as_u64 n =? 0); [by exists (Err DivisionByZero)|].
  unfold store_consensus, set_Consensus. unfold_monad.
  eexists (Ok (Some _)). split; [reflexivity|]. split; [reflexivity|].
  by repeat split.
Qed.

Lemma same_inputs_refl c n s : same_inputs c n s s.
Proof. by repeat split. Qed.

(** X1: a run of the builder that returns has changed nothing but the
    consensus record of its own campaign: the floor, the counts, the index,
    the attestations and the records of the other campaigns are as before.
    Below the floor the record of the campaign is as before too; from the
    floor on the campaign has a record that carries its id, the count passed
    in, the reached flag and the ledger time of the run. *)
Theorem X1_builder_writes_only_its_record env c n s s' :
  _try_build_consensus env c n s = Ok (tt, s') ->
  MinAttesters s' = MinAttesters s
  ∧ AttestationCount s' = AttestationCount s
  ∧ CampaignAttesterIndex s' = CampaignAttesterIndex s
  ∧ Attestation s' = Attestation s
  ∧ (∀ c', c' ≠ c -> Consensus s' !! c' = Consensus s !! c')
  ∧ (n < default 3 (MinAttesters s) -> Consensus s' = Consensus s)
  ∧ (default 3 (MinAttesters s) <= n ->
     ∃ r, Consensus s' !! c = Some r
        ∧ campaign_id r = c ∧ total_attesters r = n
        ∧ consensus_reached r = true
        ∧ last_updated r = ledger_timestamp env).
Proof.
  destruct (try_build_outcome env c n s s (same_inputs_refl c n s))
    as (w & -> & _ & Hw).
  destruct w as [[r|]|e]; cbn [apply_outcome]; intros [= <-].
  - destruct Hw as (Hge & Hr). repeat split; try done.
    + intros c' Hne. cbn. by rewrite lookup_insert_ne.
    + intros Hlt. lia.
    + intros _. exists r. cbn. by rewrite lookup_insert_eq.
  - repeat split; try done. intros Hge. lia.
Qed.

Lemma X1_witness :
  let s := run (init (Some 2)) [Scenario.A 10; Scenario.B 20] in
  ∃ s', _try_build_consensus (Scenario.env 30) 1 2 s = Ok (tt, s')
      ∧ Attestation s' = Attestation s
      ∧ CampaignAttesterIndex s' = CampaignAttesterIndex s.
Proof.
  intros s.
  set (r := {| campaign_id := 1; total_attesters := 2;
               avg_impressions := 1500; avg_clicks := 150;
               avg_fraud_rate := 1500; avg_quality_score := 85;
               consensus_reached := true; last_updated := 30 |}).
  assert (Hrun : _try_build_consensus (Scenario.env 30) 1 2 s
                 = Ok (tt, put_Consensus 1 r s))
    by (vm_compute; reflexivity).
  exists (put_Consensus 1 r s). split; [exact Hrun|].
  destruct (X1_builder_writes_only_its_record _ _ _ _ _ Hrun)
    as (_ & _ & Hidx & Hatt & _).
  by split.
Defined.

(** X2: running the builder again on the storage it returned, in the same
    ledger, returns that storage unchanged: recomputation without a new
    attestation is idempotent. *)
Theorem X2_builder_idempotent env c n s s' :
  _try_build_consensus env c n s = Ok (tt, s') ->
  _try_build_consensus env c n s' = Ok (tt, s').
Proof.
  intros Hrun.
  destruct (try_build_outcome env c n s s (same_inputs_refl c n s))
    as (w & Hs & _ & _).
  rewrite Hs in Hrun.
  destruct w as [[r|]|e]; cbn [apply_outcome] in Hrun; [| |done].
  - injection Hrun as <-.
    destruct (try_build_outcome env c n s (put_Consensus c r s))
      as (w' & Hs1 & -> & _); [by repeat split|].
    rewrite Hs in Hs1.
    destruct w' as [[r'|]|e]; cbn [apply_outcome] in *; [| |done].
    + injection Hs1 as Hs1.
      assert (r' = r) as ->.
      { apply (f_equal (fun x : gmap Z OracleConsensus => x !! c)) in Hs1.
        rewrite !lookup_insert_eq in Hs1. congruence. }
      f_equal. f_equal. unfold put_Consensus. cbn. f_equal.
      apply insert_insert_eq.
    + done.
  - injection Hrun as <-. by rewrite Hs.
Qed.

Lemma X2_witness :
  let s := run (init (Some 2)) [Scenario.A 10; Scenario.B 20] in
  ∃ s', _try_build_consensus (Scenario.env 30) 1 2 s = Ok (tt, s')
      ∧ _try_build_consensus (Scenario.env 30) 1 2 s' = Ok (tt, s').
Proof.
  intros s.
  set (r := {| campaign_id := 1; total_attesters := 2;
               avg_impressions := 1500; avg_clicks := 150;
               avg_fraud_rate := 1500; avg_quality_score := 85;
               consensus_reached := true; last_updated := 30 |}).
  assert (Hrun : _try_build_consensus (Scenario.env 30) 1 2 s
                 = Ok (tt, put_Consensus 1 r s))
    by (vm_compute; reflexivity).
  exists (put_Consensus 1 r s). split; [exact Hrun|].
  exact (X2_builder_idempotent _ _ _ _ _ Hrun).
Defined.

(** X3: the builder of a campaign reads only the floor, the index positions
    below the count it is given, and the attestations of that campaign: on
    two storages that agree on these it has the same outcome, the same
    panic, no write, or the write of the same record, whatever else the
    storages hold (other campaigns, entries past the count, old records). *)
Theorem X3_builder_reads_only_its_campaign env c n s1 s2 :
  same_inputs c n s1 s2 ->
  ∃ w, _try_build_consensus env c n s1 = apply_outcome c w s1
     ∧ _try_build_consensus env c n s2 = apply_outcome c w s2.
Proof.
  intros H. destruct (try_build_outcome env c n s1 s2 H) as (w & ? & ? & _).
  by exists w.
Qed.

Lemma X3_witness :
  let s1 := run (init (Some 2)) [Scenario.A 10; Scenario.B 20] in
  let s2 := run s1 [Scenario.submit 30 "Z" 7 (Scenario.measurement 5 5 5 5)] in
  ∃ w, _try_build_consensus (Scenario.env 40) 1 2 s1 = apply_outcome 1 w s1
     ∧ _try_build_consensus (Scenario.env 40) 1 2 s2 = apply_outcome 1 w s2.
Proof.
  intros s1 s2.
  apply (X3_builder_reads_only_its_campaign (Scenario.env 40) 1 2 s1 s2).
  split; [reflexivity|]. split.
  - intros i Hi. assert (i = 0 ∨ i = 1) as [-> | ->] by lia;
      vm_compute; reflexivity.
  - intros a. unfold s2. cbn [run foldl].
    change (Attestation s1 !! (1, a)
            = Attestation
                (snd (invoke s1 (Scenario.submit 30 "Z" 7
                                   (Scenario.measurement 5 5 5 5))))
              !! (1, a)).
    assert (E : invoke s1 (Scenario.submit 30 "Z" 7
                             (Scenario.measurement 5 5 5 5))
                = (Ok 1, written (Scenario.env 30) "Z" 7
                           (Scenario.measurement 5 5 5 5) s1))
      by (vm_compute; reflexivity).
    rewrite E. cbn [snd].
    destruct (written_other (Scenario.env 30) "Z" 7
                (Scenario.measurement 5 5 5 5) s1 1) as (_ & _ & Hatt);
      [done|]. by rewrite Hatt.
Defined.

(** * Panics of the builder *)

Lemma sum_loop_app c s : ∀ k1 k2 i acc,
  sum_loop (k1 + k2) c i acc s
  = match sum_loop k1 c i acc s with
    | Ok (acc', s') => sum_loop k2 c (i + Z.of_nat k1) acc' s'
    | Err e => Err e
    end.
Proof.
  induction k1 as [|k1 IH]; intros k2 i acc.
  - cbn. unfold ret. by rewrite Z.add_0_r.
  - cbn [Nat.add sum_loop]. unfold bind.
    destruct (accumulate c i acc s) as [[acc' s']|e] eqn:E; [|done].
    destruct (accumulate_ext c i acc s s) as (w & Hw & _); [done|done|].
    rewrite E in Hw. destruct w as [x|]; cbn [lift] in Hw; [|done].
    injection Hw as -> ->. rewrite IH.
    replace (i + 1 + Z.of_nat k1) with (i + Z.of_nat (S k1)) by lia. done.
Qed.

Lemma listed_sums_fit s c l atts :
  listed s c l atts -> ¬ sum_exceeds atts ->
  sums_fit (plus zero_sums atts).
Proof.
  intros _ Hex. unfold sum_exceeds in Hex.
  unfold sums_fit, plus, zero_sums. simpl. lia.
Qed.

(** The loop over the listed positions returns their sums. *)
Lemma sum_loop_listed s c l atts :
  listed s c l atts -> ¬ sum_exceeds atts ->
  sum_loop (length l) c 0 zero_sums s = Ok (plus zero_sums atts, s).
Proof.
  intros [Hall Hidx] Hex.
  rewrite (sum_loop_spec s c atts l 0 zero_sums Hall).
  - rewrite decide_True; [done|]. by apply (listed_sums_fit s c l).
  - intros j a Hj. rewrite Z.add_0_l. by apply Hidx.
  - unfold sums_nonneg, zero_sums; simpl; lia.
  - unfold sums_fit, zero_sums, u64_MAX; simpl; lia.
Qed.

Lemma listed_put_index s c l atts k a :
  listed s c l atts -> Z.of_nat (length l) <= k ->
  listed (put_CampaignAttesterIndex (c, k) a s) c l atts.
Proof.
  intros [Hall Hidx] Hk. split; [exact Hall|].
  intros j a' Hj. cbn. rewrite lookup_insert_ne; [by apply Hidx|].
  apply lookup_lt_Some in Hj. intros [= E]. lia.
Qed.

(** The builder on a count that runs past the listed positions, when the
    iteration at the first position after them panics with [e]. *)
Lemma try_build_past_listed env s c l atts n e :
  listed s c l atts ->
  Z.of_nat (length l) < n ->
  (∀ acc, accumulate c (Z.of_nat (length l)) acc s = Err e) ->
  _try_build_consensus env c n s
  = if decide (n < default 3 (MinAttesters s)) then Ok (tt, s)
    else if decide (sum_exceeds atts) then Err Overflow
    else Err e.
Proof.
  intros Hl Hlt Hacc.
  unfold _try_build_consensus. unfold_monad.
  destruct (Z.ltb_spec n (default 3 (MinAttesters s)));
    [by rewrite decide_True by done|].
  rewrite decide_False by lia.
  replace (Z.to_nat n)
    with (length l + S (Z.to_nat n - S (length l)))%nat by lia.
  rewrite sum_loop_app. destruct Hl as [Hall Hidx].
  rewrite (sum_loop_spec s c atts l 0 zero_sums Hall); first last.
  - unfold sums_fit, zero_sums, u64_MAX; simpl; lia.
  - unfold sums_nonneg, zero_sums; simpl; lia.
  - intros j a Hj. rewrite Z.add_0_l. by apply Hidx.
  - destruct (decide (sum_exceeds atts)) as [Hex|Hex].
    + rewrite decide_False; [done|].
      unfold sum_exceeds in Hex. unfold sums_fit, plus, zero_sums. simpl. lia.
    + rewrite decide_True by (by apply (listed_sums_fit s c l)).
      cbn [sum_loop]. unfold bind. rewrite Z.add_0_l. by rewrite Hacc.
Qed.

(** X4: the count given to the builder runs past the index: the positions
    [0 .. k-1] hold attesters with stored attestations, position [k] holds
    none, and the count is above [k].  Below the floor the builder returns
    and leaves the storage as it is.  From the floor on it panics and
    writes nothing: with [Overflow] when a sum over the [k] attestations
    leaves the accumulator, which the loop meets first, and with "attester
    index not found" otherwise. *)
Theorem X4_missing_index_entry_panics env s c l atts n :
  listed s c l atts ->
  Z.of_nat (length l) < n ->
  CampaignAttesterIndex s !! (c, Z.of_nat (length l)) = None ->
  _try_build_consensus env c n s
  = if decide (n < default 3 (MinAttesters s)) then Ok (tt, s)
    else if decide (sum_exceeds atts) then Err Overflow
    else Err (ExpectFailed "attester index not found").
Proof.
  intros Hl Hlt Hnone.
  apply (try_build_past_listed env s c l atts); try done.
  intros acc. unfold accumulate. unfold_monad. by rewrite Hnone.
Qed.

(** X5: position [k] of the index holds an attester for whom no attestation
    is stored, the positions [0 .. k-1] hold attesters with stored
    attestations, and the count given to the builder is above [k].  Below
    the floor the builder returns and leaves the storage as it is.  From
    the floor on it panics and writes nothing: with [Overflow] when a sum
    over the [k] attestations leaves the accumulator, and with "attestation
    not found" otherwise.  The index write of [submit_attestation], run
    for an attester without attestation on a campaign whose count is [k],
    produces such a storage. *)
Theorem X5_missing_attestation_panics env s c l atts n a :
  listed s c l atts ->
  Z.of_nat (length l) < n ->
  Attestation s !! (c, a) = None ->
  (CampaignAttesterIndex s !! (c, Z.of_nat (length l)) = Some a ->
   _try_build_consensus env c n s
   = if decide (n < default 3 (MinAttesters s)) then Ok (tt, s)
     else if decide (sum_exceeds atts) then Err Overflow
     else Err (ExpectFailed "attestation not found"))
  ∧ (get_attestation_count s c = Z.of_nat (length l) ->
     ∃ s1, index_attester c a s = Ok (Z.of_nat (length l), s1)
         ∧ _try_build_consensus env c n s1
           = if decide (n < default 3 (MinAttesters s)) then Ok (tt, s1)
             else if decide (sum_exceeds atts) then Err Overflow
             else Err (ExpectFailed "attestation not found")).
Proof.
  intros Hl Hlt Hnone.
  assert (Hgen : ∀ s0, listed s0 c l atts ->
            CampaignAttesterIndex s0 !! (c, Z.of_nat (length l)) = Some a ->
            Attestation s0 !! (c, a) = None ->
            _try_build_consensus env c n s0
            = if decide (n < default 3 (MinAttesters s0)) then Ok (tt, s0)
              else if decide (sum_exceeds atts) then Err Overflow
              else Err (ExpectFailed "attestation not found")).
  { intros s0 Hl0 Hsome0 Hnone0.
    apply (try_build_past_listed env s0 c l atts); try done.
    intros acc. unfold accumulate. unfold_monad. rewrite Hsome0.
    unfold_monad. by rewrite Hnone0. }
  split; [intros Hsome; by apply Hgen|].
  intros Hcount. rewrite index_attester_spec, Hcount.
  eexists. split; [reflexivity|].
  apply (Hgen (put_CampaignAttesterIndex (c, Z.of_nat (length l)) a s)).
  - apply listed_put_index; [done|lia].
  - cbn. by rewrite lookup_insert_eq.
  - exact Hnone.
Qed.

(** X6: with a floor of zero configured, the builder called with a count of
    zero reads nothing and divides by zero: it panics instead of writing an
    empty consensus. *)
Theorem X6_zero_count_divides_by_zero env s c :
  default 3 (MinAttesters s) <= 0 ->
  _try_build_consensus env c 0 s = Err DivisionByZero.
Proof.
  intros Hmin. unfold _try_build_consensus. unfold_monad.
  by destruct (Z.ltb_spec 0 (default 3 (MinAttesters s))); [lia|].
Qed.

Lemma index_inv_listed s c l :
  index_inv s c l -> listed s c l (attestations_of s c l).
Proof.
  intros Hinv. split; [by apply index_inv_attestations|].
  intros j a Hj. rewrite (inv_index _ _ _ Hinv), decide_True by lia.
  by rewrite Nat2Z.id.
Qed.

Lemma index_inv_past_end s c l :
  index_inv s c l ->
  CampaignAttesterIndex s !! (c, Z.of_nat (length l)) = None.
Proof.
  intros Hinv. rewrite (inv_index _ _ _ Hinv), decide_True by lia.
  apply lookup_ge_None_2. lia.
Qed.

Lemma sum_exceeds_perm atts1 atts2 :
  atts1 ≡ₚ atts2 -> sum_exceeds atts1 -> sum_exceeds atts2.
Proof.
  intros Hperm. unfold sum_exceeds. by rewrite !(total_perm _ _ _ Hperm).
Qed.

Lemma X4_witness :
  let s := run (init (Some 2)) [Scenario.A 10; Scenario.B 20] in
  _try_build_consensus (Scenario.env 30) 1 3 s
  = Err (ExpectFailed "attester index not found").
Proof.
  intros s.
  assert (Hreach : reachable s)
    by (by exists (Some 2), [Scenario.A 10; Scenario.B 20]).
  destruct (reachable_inv s Hreach 1) as (l & Hl & _).
  assert (Hlen : Z.of_nat (length l) = 2).
  { rewrite <- (inv_count _ _ _ Hl). vm_compute. reflexivity. }
  rewrite (X4_missing_index_entry_panics (Scenario.env 30) s 1 l
             (attestations_of s 1 l) 3).
  - rewrite decide_False by (vm_compute; discriminate).
    rewrite decide_False; [reflexivity|]. intros Hex.
    apply (sum_exceeds_perm _ _ (stored_attestations_perm s 1 l Hl)) in Hex.
    revert Hex. vm_compute. intros [H|[H|[H|H]]]; discriminate H.
  - by apply index_inv_listed.
  - rewrite Hlen. lia.
  - by apply index_inv_past_end.
Defined.

Lemma X5_witness :
  let s0 := run (init (Some 2)) [Scenario.A 10; Scenario.B 20] in
  ∃ s, index_attester 1 "C" s0 = Ok (2, s)
     ∧ _try_build_consensus (Scenario.env 30) 1 3 s
       = Err (ExpectFailed "attestation not found").
Proof.
  intros s0.
  assert (Hreach : reachable s0)
    by (by exists (Some 2), [Scenario.A 10; Scenario.B 20]).
  destruct (reachable_inv s0 Hreach 1) as (l & Hl & _).
  assert (Hlen : Z.of_nat (length l) = 2).
  { rewrite <- (inv_count _ _ _ Hl). vm_compute. reflexivity. }
  destruct (X5_missing_attestation_panics (Scenario.env 30) s0 1 l
              (attestations_of s0 1 l) 3 "C") as [_ Hwrite].
  - by apply index_inv_listed.
  - rewrite Hlen. lia.
  - vm_compute. reflexivity.
  - destruct Hwrite as (s & Hs & Hbuild); [apply (inv_count _ _ _ Hl)|].
    exists s. rewrite Hlen in Hs. split; [exact Hs|].
    rewrite Hbuild.
    rewrite decide_False by (vm_compute; discriminate).
    rewrite decide_False; [reflexivity|]. intros Hex.
    apply (sum_exceeds_perm _ _ (stored_attestations_perm s0 1 l Hl)) in Hex.
    revert Hex. vm_compute. intros [H|[H|[H|H]]]; discriminate H.
Defined.

Lemma X6_witness :
  _try_build_consensus (Scenario.env 10) 1 0 (init (Some 0))
  = Err DivisionByZero.
Proof.
  apply (X6_zero_count_divides_by_zero (Scenario.env 10) (init (Some 0)) 1).
  vm_compute. discriminate.
Defined.

(** * The averages the builder writes *)

Lemma listed_length s c l atts : listed s c l atts -> length atts = length l.
Proof. intros [Hall _]. symmetry. by eapply Forall2_length. Qed.

Lemma listed_in_range s c l atts (f : PerformanceAttestation -> Z) hi :
  listed s c l atts ->
  (∀ a att, wf_attestation c a att -> 0 <= f att <= hi) ->
  Forall (fun att => 0 <= f att <= hi) atts.
Proof.
  intros [Hall _] Hf. eapply Forall2_Forall_r; [exact Hall|].
  intros a att [_ Hw]. by apply (Hf a).
Qed.

Lemma listed_not_exceeds s c l atts :
  listed s c l atts -> Z.of_nat (length l) <= u32_MAX ->
  counters_fit atts -> ¬ sum_exceeds atts.
Proof.
  intros Hl Hb [Hi Hc].
  pose proof (listed_length _ _ _ _ Hl) as Hlen.
  pose proof (total_bounds fraud_rate 0 u32_MAX atts) as Hf.
  pose proof (total_bounds quality_score 0 u32_MAX atts) as Hq.
  rewrite Hlen in Hf, Hq.
  destruct Hf as [_ Hf].
  { apply (listed_in_range s c l); [done|].
    intros a att Hw. unfold wf_attestation in Hw. lia. }
  destruct Hq as [_ Hq].
  { apply (listed_in_range s c l); [done|].
    intros a att Hw. unfold wf_attestation in Hw. lia. }
  unfold sum_exceeds. unfold u32_MAX, u64_MAX in *. nia.
Qed.

(** The builder on listed positions: the record of their truncated means. *)
Lemma try_build_listed env s c l atts :
  listed s c l atts ->
  1 <= Z.of_nat (length l) <= u32_MAX ->
  default 3 (MinAttesters s) <= Z.of_nat (length l) ->
  counters_fit atts ->
  _try_build_consensus env c (Z.of_nat (length l)) s
  = Ok (tt, put_Consensus c (consensus_of c (ledger_timestamp env) atts) s).
Proof.
  intros Hl [Hpos Hb] Hmin Hfit.
  pose proof (listed_length _ _ _ _ Hl) as Hlen.
  pose proof (listed_not_exceeds _ _ _ _ Hl Hb Hfit) as Hex.
  unfold _try_build_consensus. unfold_monad.
  destruct (Z.ltb_spec (Z.of_nat (length l)) (default 3 (MinAttesters s)));
    [lia|].
  rewrite Nat2Z.id, (sum_loop_listed s c l atts Hl Hex).
  rewrite as_u64_count by lia. unfold div_u64.
  destruct (Z.eqb_spec (Z.of_nat (length l)) 0); [lia|].
  unfold store_consensus, set_Consensus. unfold_monad.
  do 3 f_equal. unfold consensus_of, mean, plus, zero_sums. simpl.
  rewrite Hlen.
  assert (Hne : atts ≠ []).
  { intros E. rewrite E in Hlen. simpl in Hlen. lia. }
  pose proof (mean_bounds fraud_rate 0 u32_MAX _ Hne (Z.le_refl 0)) as Hf.
  pose proof (mean_bounds quality_score 0 u32_MAX _ Hne (Z.le_refl 0)) as Hq.
  unfold mean in Hf, Hq. rewrite Hlen in Hf, Hq.
  rewrite !as_u32_small; [reflexivity| |].
  - apply Hq. apply (listed_in_range s c l); [done|].
    intros a att Hw. unfold wf_attestation in Hw. lia.
  - apply Hf. apply (listed_in_range s c l); [done|].
    intros a att Hw. unfold wf_attestation in Hw. lia.
Qed.

(** X7: the builder averages the attestations of the index positions below
    the count it is given, in whatever state the rest of the storage is: an
    attester who sits at two positions is counted twice, and neither the
    positions from the count on nor attestations of attesters outside the
    index are read.  With [n] listed positions at or above the floor and
    counters that fit, the record written holds [n] and the truncated means
    of the listed attestations. *)
Theorem X7_builder_averages_listed_positions env s c l atts :
  listed s c l atts ->
  1 <= Z.of_nat (length l) <= u32_MAX ->
  default 3 (MinAttesters s) <= Z.of_nat (length l) ->
  counters_fit atts ->
  ∃ s' r,
    _try_build_consensus env c (Z.of_nat (length l)) s = Ok (tt, s')
    ∧ Consensus s' !! c = Some r
    ∧ total_attesters r = Z.of_nat (length l)
    ∧ avg_impressions r
      = total impressions_verified atts ÷ Z.of_nat (length l)
    ∧ avg_clicks r = total clicks_verified atts ÷ Z.of_nat (length l)
    ∧ avg_fraud_rate r = total fraud_rate atts ÷ Z.of_nat (length l)
    ∧ avg_quality_score r = total quality_score atts ÷ Z.of_nat (length l).
Proof.
  intros Hl Hb Hmin Hfit.
  pose proof (listed_length _ _ _ _ Hl) as Hlen.
  eexists _, _. split; [by apply try_build_listed|].
  split; [cbn; by rewrite lookup_insert_eq|].
  cbn [total_attesters avg_impressions avg_clicks avg_fraud_rate
    avg_quality_score consensus_of]. unfold mean. rewrite Hlen. done.
Qed.

Lemma X7_witness :
  let s0 := run (init (Some 2)) [Scenario.A 10; Scenario.B 20] in
  let s := put_CampaignAttesterIndex (1, 2) "A" s0 in
  ∃ s' r,
    _try_build_consensus (Scenario.env 30) 1 3 s = Ok (tt, s')
    ∧ Consensus s' !! 1 = Some r
    ∧ total_attesters r = 3
    ∧ avg_impressions r = 1333.
Proof.
  intros s0 s.
  set (attA := attestation_of (Scenario.env 10) "A" 1
                 (Scenario.measurement 1000 100 1000 80)).
  set (attB := attestation_of (Scenario.env 20) "B" 1
                 (Scenario.measurement 2000 200 2000 90)).
  assert (Hw : ∀ a att, att = attA ∧ a = "A" ∨ att = attB ∧ a = "B" ->
            Attestation s !! (1, a) = Some att ∧ wf_attestation 1 a att).
  { intros a att [[-> ->]|[-> ->]];
      (split; [vm_compute; reflexivity|]);
      unfold wf_attestation, u64_MAX, u32_MAX; cbn; repeat split; lia. }
  destruct (X7_builder_averages_listed_positions (Scenario.env 30) s 1
              ["A"; "B"; "A"] [attA; attB; attA])
    as (s' & r & Hrun & Hr & Htot & Hi & _).
  - split.
    + do 3 (constructor; [apply Hw; auto|]). constructor.
    + intros [|[|[|j]]] a; cbn; intros [= <-]; vm_compute; reflexivity.
  - unfold u32_MAX. cbn. lia.
  - vm_compute. discriminate.
  - split; vm_compute; discriminate.
  - exists s', r. split; [exact Hrun|]. split; [exact Hr|].
    split; [exact Htot|exact Hi].
Defined.

Lemma truncation_of_quot n sum :
  0 < n -> 0 <= sum -> truncation_of n (sum ÷ n) sum.
Proof.
  intros Hn Hs. unfold truncation_of. rewrite Z.quot_div_nonneg by lia.
  pose proof (Z.div_mod sum n ltac:(lia)).
  pose proof (Z.mod_pos_bound sum n Hn). lia.
Qed.

Lemma listed_total_nonneg s c l atts :
  listed s c l atts ->
  0 <= total impressions_verified atts ∧ 0 <= total clicks_verified atts
  ∧ 0 <= total fraud_rate atts ∧ 0 <= total quality_score atts.
Proof.
  intros [Hall _]. apply (wf_attestations_nonneg c atts l).
  eapply Forall2_impl; [exact Hall|]. by intros ?? [_ ?].
Qed.

(** X8: each average the builder writes lies between the smallest and the
    largest report of its field: whatever bounds [lo <= hi] hold for all
    listed attestations hold for the average.  In particular, when all
    attesters report the same value, that value is the average, and a single
    attester's consensus is its own report. *)
Theorem X8_averages_within_reports env s c l atts :
  listed s c l atts ->
  1 <= Z.of_nat (length l) <= u32_MAX ->
  default 3 (MinAttesters s) <= Z.of_nat (length l) ->
  counters_fit atts ->
  ∃ s' r,
    _try_build_consensus env c (Z.of_nat (length l)) s = Ok (tt, s')
    ∧ Consensus s' !! c = Some r
    ∧ within_reports r atts.
Proof.
  intros Hl Hb Hmin Hfit.
  pose proof (listed_length _ _ _ _ Hl) as Hlen.
  eexists _, _. split; [by apply try_build_listed|].
  split; [cbn; by rewrite lookup_insert_eq|].
  assert (Hne : atts ≠ []).
  { intros E. rewrite E in Hlen. simpl in Hlen. lia. }
  intros lo hi Hlo.
  cbn [avg_impressions avg_clicks avg_fraud_rate avg_quality_score
    consensus_of].
  split; [|split; [|split]]; intros Hall; by apply mean_bounds.
Qed.

(** X9: the truncation of each average loses less than one unit: the count
    times the average is at most the sum of the reports and exceeds it by
    less than the count. *)
Theorem X9_truncation_loses_less_than_one env s c l atts :
  listed s c l atts ->
  1 <= Z.of_nat (length l) <= u32_MAX ->
  default 3 (MinAttesters s) <= Z.of_nat (length l) ->
  counters_fit atts ->
  ∃ s' r,
    _try_build_consensus env c (Z.of_nat (length l)) s = Ok (tt, s')
    ∧ Consensus s' !! c = Some r
    ∧ truncation_of (total_attesters r) (avg_impressions r)
        (total impressions_verified atts)
    ∧ truncation_of (total_attesters r) (avg_clicks r)
        (total clicks_verified atts)
    ∧ truncation_of (total_attesters r) (avg_fraud_rate r)
        (total fraud_rate atts)
    ∧ truncation_of (total_attesters r) (avg_quality_score r)
        (total quality_score atts).
Proof.
  intros Hl Hb Hmin Hfit.
  pose proof (listed_length _ _ _ _ Hl) as Hlen.
  pose proof (listed_total_nonneg _ _ _ _ Hl) as (H1 & H2 & H3 & H4).
  eexists _, _. split; [by apply try_build_listed|].
  split; [cbn; by rewrite lookup_insert_eq|].
  cbn [total_attesters avg_impressions avg_clicks avg_fraud_rate
    avg_quality_score consensus_of]. unfold mean.
  split; [|split; [|split]]; apply truncation_of_quot; lia.
Qed.

Lemma total_le {A} (f : A -> Z) atts1 atts2 :
  Forall2 (fun x y => f x <= f y) atts1 atts2 ->
  total f atts1 <= total f atts2.
Proof.
  induction 1; rewrite ?total_nil, ?total_cons; lia.
Qed.

Lemma mean_le {A} (f : A -> Z) atts1 atts2 :
  atts1 ≠ [] ->
  Forall2 (fun x y => f x <= f y) atts1 atts2 ->
  mean f atts1 <= mean f atts2.
Proof.
  intros Hne Hall. unfold mean. rewrite <- (Forall2_length _ _ _ Hall).
  apply Z.quot_le_mono; [|by apply total_le].
  destruct atts1; [done|simpl; lia].
Qed.

(** X10: the averages are monotone in the reports: when the same number of
    positions is listed in two storages and no report of a field is lower
    in the second than the report at the same position in the first, the
    average of that field written for the second is not lower either. *)
Theorem X10_averages_monotone env1 env2 s1 s2 c l1 l2 atts1 atts2 :
  listed s1 c l1 atts1 -> listed s2 c l2 atts2 ->
  length l1 = length l2 ->
  1 <= Z.of_nat (length l1) <= u32_MAX ->
  default 3 (MinAttesters s1) <= Z.of_nat (length l1) ->
  default 3 (MinAttesters s2) <= Z.of_nat (length l1) ->
  counters_fit atts1 -> counters_fit atts2 ->
  ∃ r1 r2,
    _try_build_consensus env1 c (Z.of_nat (length l1)) s1
    = Ok (tt, put_Consensus c r1 s1)
    ∧ _try_build_consensus env2 c (Z.of_nat (length l1)) s2
      = Ok (tt, put_Consensus c r2 s2)
    ∧ (Forall2 (fun x y => impressions_verified x <= impressions_verified y)
         atts1 atts2 -> avg_impressions r1 <= avg_impressions r2)
    ∧ (Forall2 (fun x y => clicks_verified x <= clicks_verified y)
         atts1 atts2 -> avg_clicks r1 <= avg_clicks r2)
    ∧ (Forall2 (fun x y => fraud_rate x <= fraud_rate y)
         atts1 atts2 -> avg_fraud_rate r1 <= avg_fraud_rate r2)
    ∧ (Forall2 (fun x y => quality_score x <= quality_score y)
         atts1 atts2 -> avg_quality_score r1 <= avg_quality_score r2).
Proof.
  intros Hl1 Hl2 Hlen Hb Hmin1 Hmin2 Hfit1 Hfit2.
  pose proof (listed_length _ _ _ _ Hl1) as Hlen1.
  assert (Hne : atts1 ≠ []).
  { intros E. rewrite E in Hlen1. simpl in Hlen1. lia. }
  eexists _, _. split; [by apply try_build_listed|].
  split; [rewrite Hlen in *; by apply try_build_listed|].
  cbn [avg_impressions avg_clicks avg_fraud_rate avg_quality_score
    consensus_of].
  split; [|split; [|split]]; intros Hall; by apply mean_le.
Qed.

Lemma mean_values {A} (f : A -> Z) atts : mean f atts = mean id (f <$> atts).
Proof. by rewrite mean_fmap. Qed.

(** X11: an average depends only on the values reported in its field, not
    on who reported them, when, or at which index position: when the values
    of a field listed in two storages are the same up to order, the builder
    writes the same average of that field in both. *)
Theorem X11_averages_depend_on_values_only env1 env2 s1 s2 c l1 l2
    atts1 atts2 :
  listed s1 c l1 atts1 -> listed s2 c l2 atts2 ->
  length l1 = length l2 ->
  1 <= Z.of_nat (length l1) <= u32_MAX ->
  default 3 (MinAttesters s1) <= Z.of_nat (length l1) ->
  default 3 (MinAttesters s2) <= Z.of_nat (length l1) ->
  counters_fit atts1 -> counters_fit atts2 ->
  ∃ r1 r2,
    _try_build_consensus env1 c (Z.of_nat (length l1)) s1
    = Ok (tt, put_Consensus c r1 s1)
    ∧ _try_build_consensus env2 c (Z.of_nat (length l1)) s2
      = Ok (tt, put_Consensus c r2 s2)
    ∧ (impressions_verified <$> atts1 ≡ₚ impressions_verified <$> atts2 ->
       avg_impressions r1 = avg_impressions r2)
    ∧ (clicks_verified <$> atts1 ≡ₚ clicks_verified <$> atts2 ->
       avg_clicks r1 = avg_clicks r2)
    ∧ (fraud_rate <$> atts1 ≡ₚ fraud_rate <$> atts2 ->
       avg_fraud_rate r1 = avg_fraud_rate r2)
    ∧ (quality_score <$> atts1 ≡ₚ quality_score <$> atts2 ->
       avg_quality_score r1 = avg_quality_score r2).
Proof.
  intros Hl1 Hl2 Hlen Hb Hmin1 Hmin2 Hfit1 Hfit2.
  eexists _, _. split; [by apply try_build_listed|].
  split; [rewrite Hlen in *; by apply try_build_listed|].
  cbn [avg_impressions avg_clicks avg_fraud_rate avg_quality_score
    consensus_of].
  split; [|split; [|split]]; intros Hperm;
    rewrite (mean_values _ atts1), (mean_values _ atts2);
    by apply mean_perm.
Qed.

(** The two-attester scenario lists A and B with what they submitted. *)
Lemma scenario_listed t1 t2 (m1 m2 : Measurement) (a1 a2 : Address) :
  a1 ≠ a2 ->
  valid_measurement (Scenario.env t1) m1 = true ->
  valid_measurement (Scenario.env t2) m2 = true ->
  all_return (init (Some 2))
    [Scenario.submit t1 a1 1 m1; Scenario.submit t2 a2 1 m2] ->
  listed (run (init (Some 2))
            [Scenario.submit t1 a1 1 m1; Scenario.submit t2 a2 1 m2])
    1 [a1; a2]
    [attestation_of (Scenario.env t1) a1 1 m1;
     attestation_of (Scenario.env t2) a2 1 m2].
Proof.
  intros Hne Hv1 Hv2 Hret.
  destruct (run_first_submissions 1
              [Scenario.submit t1 a1 1 m1; Scenario.submit t2 a2 1 m2]
              (init (Some 2)) []) as [Hidx Hatts].
  - apply init_inv.
  - apply init_index_inv.
  - by repeat constructor.
  - cbn. apply NoDup_cons. split; [by intros ?%list_elem_of_singleton|].
    apply NoDup_singleton.
  - exact Hret.
  - cbn [app fmap list_fmap] in Hidx, Hatts.
    pose proof (index_inv_listed _ _ _ Hidx) as Hl.
    rewrite Hatts in Hl. exact Hl.
Qed.

Lemma X8_witness :
  let s := run (init (Some 2)) [Scenario.A 10; Scenario.B 20] in
  ∃ s' r,
    _try_build_consensus (Scenario.env 30) 1 2 s = Ok (tt, s')
    ∧ Consensus s' !! 1 = Some r
    ∧ 1000 <= avg_impressions r <= 2000.
Proof.
  intros s.
  destruct (X8_averages_within_reports (Scenario.env 30) s 1 ["A"; "B"]
              [attestation_of (Scenario.env 10) "A" 1
                 (Scenario.measurement 1000 100 1000 80);
               attestation_of (Scenario.env 20) "B" 1
                 (Scenario.measurement 2000 200 2000 90)])
    as (s' & r & Hrun & Hr & Hin).
  - apply (scenario_listed 10 20); [done|reflexivity|reflexivity|].
    cbn. repeat split; eexists; vm_compute; reflexivity.
  - unfold u32_MAX. cbn. lia.
  - vm_compute. discriminate.
  - split; vm_compute; discriminate.
  - exists s', r. split; [exact Hrun|]. split; [exact Hr|].
    destruct (Hin 1000 2000) as (Hi & _); [lia|].
    apply Hi. repeat constructor; cbn; lia.
Defined.

Lemma X9_witness :
  let s := run (init (Some 2)) [Scenario.flat 10 "A" 10; Scenario.flat 20 "B" 11] in
  ∃ s' r,
    _try_build_consensus (Scenario.env 30) 1 2 s = Ok (tt, s')
    ∧ Consensus s' !! 1 = Some r
    ∧ truncation_of (total_attesters r) (avg_impressions r) 21.
Proof.
  intros s.
  destruct (X9_truncation_loses_less_than_one (Scenario.env 30) s 1
              ["A"; "B"]
              [attestation_of (Scenario.env 10) "A" 1
                 (Scenario.measurement 10 10 10 10);
               attestation_of (Scenario.env 20) "B" 1
                 (Scenario.measurement 11 11 11 11)])
    as (s' & r & Hrun & Hr & Hi & _).
  - apply (scenario_listed 10 20); [done|reflexivity|reflexivity|].
    cbn. repeat split; eexists; vm_compute; reflexivity.
  - unfold u32_MAX. cbn. lia.
  - vm_compute. discriminate.
  - split; vm_compute; discriminate.
  - exists s', r. split; [exact Hrun|]. split; [exact Hr|]. exact Hi.
Defined.

Lemma X10_witness :
  let s1 := run (init (Some 2))
              [Scenario.flat 10 "A" 50; Scenario.flat 20 "B" 50] in
  let s2 := run (init (Some 2))
              [Scenario.flat 10 "A" 50; Scenario.flat 20 "B" 61] in
  ∃ r1 r2,
    _try_build_consensus (Scenario.env 30) 1 2 s1
    = Ok (tt, put_Consensus 1 r1 s1)
    ∧ _try_build_consensus (Scenario.env 30) 1 2 s2
      = Ok (tt, put_Consensus 1 r2 s2)
    ∧ avg_impressions r1 <= avg_impressions r2.
Proof.
  intros s1 s2.
  destruct (X10_averages_monotone (Scenario.env 30) (Scenario.env 30)
              s1 s2 1 ["A"; "B"] ["A"; "B"]
              [attestation_of (Scenario.env 10) "A" 1
                 (Scenario.measurement 50 50 50 50);
               attestation_of (Scenario.env 20) "B" 1
                 (Scenario.measurement 50 50 50 50)]
              [attestation_of (Scenario.env 10) "A" 1
                 (Scenario.measurement 50 50 50 50);
               attestation_of (Scenario.env 20) "B" 1
                 (Scenario.measurement 61 61 61 61)])
    as (r1 & r2 & H1 & H2 & Hi & _).
  - apply (scenario_listed 10 20); [done|reflexivity|reflexivity|].
    cbn. repeat split; eexists; vm_compute; reflexivity.
  - apply (scenario_listed 10 20); [done|reflexivity|reflexivity|].
    cbn. repeat split; eexists; vm_compute; reflexivity.
  - reflexivity.
  - unfold u32_MAX. cbn. lia.
  - vm_compute. discriminate.
  - vm_compute. discriminate.
  - split; vm_compute; discriminate.
  - split; vm_compute; discriminate.
  - exists r1, r2. split; [exact H1|]. split; [exact H2|].
    apply Hi. repeat constructor; cbn; lia.
Defined.

Lemma X11_witness :
  let s1 := run (init (Some 2)) [Scenario.A 10; Scenario.B 20] in
  let s2 := run (init (Some 2))
              [Scenario.submit 5 "P" 1 (Scenario.measurement 2000 200 2000 90);
               Scenario.submit 6 "Q" 1 (Scenario.measurement 1000 100 1000 80)]
  in
  ∃ r1 r2,
    _try_build_consensus (Scenario.env 30) 1 2 s1
    = Ok (tt, put_Consensus 1 r1 s1)
    ∧ _try_build_consensus (Scenario.env 40) 1 2 s2
      = Ok (tt, put_Consensus 1 r2 s2)
    ∧ avg_impressions r1 = avg_impressions r2
    ∧ avg_quality_score r1 = avg_quality_score r2.
Proof.
  intros s1 s2.
  destruct (X11_averages_depend_on_values_only (Scenario.env 30)
              (Scenario.env 40) s1 s2 1 ["A"; "B"] ["P"; "Q"]
              [attestation_of (Scenario.env 10) "A" 1
                 (Scenario.measurement 1000 100 1000 80);
               attestation_of (Scenario.env 20) "B" 1
                 (Scenario.measurement 2000 200 2000 90)]
              [attestation_of (Scenario.env 5) "P" 1
                 (Scenario.measurement 2000 200 2000 90);
               attestation_of (Scenario.env 6) "Q" 1
                 (Scenario.measurement 1000 100 1000 80)])
    as (r1 & r2 & H1 & H2 & Hi & _ & _ & Hq).
  - apply (scenario_listed 10 20); [done|reflexivity|reflexivity|].
    cbn. repeat split; eexists; vm_compute; reflexivity.
  - apply (scenario_listed 5 6); [done|reflexivity|reflexivity|].
    cbn. repeat split; eexists; vm_compute; reflexivity.
  - reflexivity.
  - unfold u32_MAX. cbn. lia.
  - vm_compute. discriminate.
  - vm_compute. discriminate.
  - split; vm_compute; discriminate.
  - split; vm_compute; discriminate.
  - exists r1, r2. split; [exact H1|]. split; [exact H2|]. split.
    + apply Hi. apply (Permutation_swap 2000 1000 []).
    + apply Hq. apply (Permutation_swap 90 80 []).
Defined.

(** * The index write of a submission *)

(** X12: the index write shown for [submit_attestation] stores the attester
    at the position given by the current count of the campaign and returns
    that count; it changes no other index entry, of this or another
    campaign, and neither the count, the attestations nor any consensus
    record.  As the count stays, a second index write before the count is
    raised lands on the same position and replaces the first; and a
    consensus computed for the current count has the same outcome before
    and after the write. *)
Theorem X12_index_write_at_count c a s :
  ∃ s',
    index_attester c a s = Ok (get_attestation_count s c, s')
    ∧ CampaignAttesterIndex s' !! (c, get_attestation_count s c) = Some a
    ∧ (∀ k, k ≠ (c, get_attestation_count s c) ->
         CampaignAttesterIndex s' !! k = CampaignAttesterIndex s !! k)
    ∧ AttestationCount s' = AttestationCount s
    ∧ Attestation s' = Attestation s
    ∧ Consensus s' = Consensus s
    ∧ MinAttesters s' = MinAttesters s
    ∧ (∀ b, index_attester c b s' = index_attester c b s)
    ∧ (∀ env, ∃ w,
         _try_build_consensus env c (get_attestation_count s c) s
         = apply_outcome c w s
         ∧ _try_build_consensus env c (get_attestation_count s c) s'
           = apply_outcome c w s').
Proof.
  exists (put_CampaignAttesterIndex (c, get_attestation_count s c) a s).
  split; [reflexivity|]. split; [cbn; by rewrite lookup_insert_eq|].
  split; [intros k Hk; cbn; by rewrite lookup_insert_ne|].
  do 4 (split; [reflexivity|]). split.
  - intros b. unfold index_attester, set_CampaignAttesterIndex.
    unfold_monad. cbn [AttestationCount put_CampaignAttesterIndex].
    do 2 f_equal. unfold put_CampaignAttesterIndex. cbn. f_equal.
    apply insert_insert_eq.
  - intros env.
    destruct (try_build_outcome env c (get_attestation_count s c) s
                (put_CampaignAttesterIndex (c, get_attestation_count s c) a s))
      as (w & H1 & H2 & _); [|by exists w].
    split; [reflexivity|]. split; [|done].
    intros i Hi. cbn. rewrite lookup_insert_ne; [done|].
    intros [= E]. lia.
Qed.
